(** * terraform-provider-aws: EFS replication configuration, MediaConvert and
    SFN service packages

    A shallow embedding of
      - internal/service/efs/replication_configuration.go
      - internal/service/mediaconvert/service_package_gen.go
      - the sfn service package (service_package_gen.go of package sfn)

    Go pointers are [option] values ([None] is nil), slices are lists (the nil
    slice and the empty slice are both [[]]), [map[string]interface{}] is a
    [gmap string attr], and a Go function that talks to AWS runs in a small
    state monad over the remote service, the log of the API calls made and
    the resource data; its failure case is a Go panic. *)

From stdpp Require Import gmap strings list.
From Stdlib Require Import ZArith.

Local Open Scope string_scope.
Local Open Scope list_scope.
#[local] Set Warnings "-register-all".


(** ** Constants and helpers of the SDKs and of the provider *)

Module names.

(** Modelled from the spec: the attribute-name constants of the provider's
    names package, which is not among the sources. *)
Definition AttrARN : string := "arn".
Definition AttrCreationTime : string := "creation_time".
Definition AttrDestination : string := "destination".
Definition AttrEndpoint : string := "endpoint".
Definition AttrFileSystemID : string := "file_system_id".
Definition AttrKMSKeyID : string := "kms_key_id".
Definition AttrRegion : string := "region".
Definition AttrSession : string := "session".
Definition AttrStatus : string := "status".
Definition MediaConvert : string := "mediaconvert".

End names.

Module aws.

(** aws.String: a pointer to the string. *)
Definition String (s : string) : option string := Some s.

(** aws.ToString: the string pointed to, the empty string for nil. *)
Definition ToString (p : option string) : string :=
  match p with Some s => s | None => "" end.

(** The three values of FIPSEndpointState, in both SDK generations. *)
Inductive FIPSEndpointState :=
| FIPSEndpointStateUnset
| FIPSEndpointStateEnabled
| FIPSEndpointStateDisabled.

#[global] Instance FIPSEndpointState_eq_dec : EqDecision FIPSEndpointState.
Proof. solve_decision. Defined.

End aws.

(** ** Service-package registration records (internal/types) *)

Module types.

Record ServicePackageResourceTags := {
  IdentifierAttribute : string
}.

(** The factories are functions of the service packages; the registration
    tables only name them. *)
Inductive factory :=
| dataSourceQueue
| resourceQueue.

Record ServicePackageSDKDataSource := {
  dsFactory : factory;
  dsTypeName : string;
  dsName : string;
  dsTags : option ServicePackageResourceTags
}.

Record ServicePackageSDKResource := {
  resFactory : factory;
  resTypeName : string;
  resName : string;
  resTags : option ServicePackageResourceTags
}.

Record ServicePackageFrameworkDataSource := {
  fdsFactory : factory;
  fdsName : string
}.

Record ServicePackageFrameworkResource := {
  frFactory : factory;
  frName : string
}.

End types.

(** The values a [map[string]any] client configuration holds. *)
Inductive any (Config Session : Type) :=
| AnyString (s : string)
| AnyConfig (c : Config)
| AnySession (s : Session).
Arguments AnyString {Config Session} s.
Arguments AnyConfig {Config Session} c.
Arguments AnySession {Config Session} s.

(** ** package mediaconvert *)

Module mediaconvert.
Import types.

Definition FrameworkDataSources : list ServicePackageFrameworkDataSource := [].

Definition FrameworkResources : list ServicePackageFrameworkResource := [].

Definition SDKDataSources : list ServicePackageSDKDataSource :=
  [ {| dsFactory := dataSourceQueue;
       dsTypeName := "aws_media_convert_queue";
       dsName := "Queue";
       dsTags := Some {| IdentifierAttribute := names.AttrARN |} |} ].

Definition SDKResources : list ServicePackageSDKResource :=
  [ {| resFactory := resourceQueue;
       resTypeName := "aws_media_convert_queue";
       resName := "Queue";
       resTags := Some {| IdentifierAttribute := names.AttrARN |} |} ].

Definition ServicePackageName : string := names.MediaConvert.

(** mediaconvert.Options, as far as the option function touches it;
    [UseFIPSEndpoint] is [o.EndpointOptions.UseFIPSEndpoint]. *)
Record Options := {
  Region : string;
  BaseEndpoint : option string;
  UseFIPSEndpoint : aws.FIPSEndpointState
}.

Definition withBaseEndpoint (o : Options) (e : option string) : Options :=
  {| Region := Region o; BaseEndpoint := e; UseFIPSEndpoint := UseFIPSEndpoint o |}.

Definition withUseFIPSEndpoint (o : Options) (f : aws.FIPSEndpointState) : Options :=
  {| Region := Region o; BaseEndpoint := BaseEndpoint o; UseFIPSEndpoint := f |}.

Record Client := { options : Options }.

Section NewClient.
(** aws.Config of SDK v2, and the options NewFromConfig derives from it, are
    the SDK's. *)
Context {Config Session : Type} (optionsFromConfig : Config -> Options).

(** mediaconvert.NewFromConfig: the options of the configuration, with the
    option functions applied in order ([None]: an option function
    panicked). *)
Definition NewFromConfig (cfg : Config) (optFns : list (Options -> option Options))
  : option Client :=
  o ← foldl (fun acc fn => acc ≫= fn) (Some (optionsFromConfig cfg)) optFns;
  Some {| options := o |}.

(** The option function NewClient passes. The type assertion
    [config[names.AttrEndpoint].(string)] panics on anything but a string. *)
Definition setEndpoint (config : gmap string (any Config Session)) (o : Options)
  : option Options :=
  match config !! names.AttrEndpoint with
  | Some (AnyString endpoint) =>
      if decide (endpoint = "") then Some o
      else
        let o := withBaseEndpoint o (aws.String endpoint) in
        if decide (UseFIPSEndpoint o = aws.FIPSEndpointStateEnabled)
        then Some (withUseFIPSEndpoint o aws.FIPSEndpointStateDisabled)
        else Some o
  | _ => None
  end.

Definition NewClient (config : gmap string (any Config Session)) : option Client :=
  match config !! "aws_sdkv2_config" with
  | Some (AnyConfig cfg) => NewFromConfig cfg [setEndpoint config]
  | _ => None
  end.

End NewClient.
End mediaconvert.

(** ** package sfn *)

Module sfn.

(** aws.Config of SDK v1, as far as NewConn and Session.Copy touch it. *)
Record Config := {
  Region : option string;
  Endpoint : option string;
  UseFIPSEndpoint : aws.FIPSEndpointState
}.

Definition withEndpoint (c : Config) (e : option string) : Config :=
  {| Region := Region c; Endpoint := e; UseFIPSEndpoint := UseFIPSEndpoint c |}.

Definition withUseFIPSEndpoint (c : Config) (f : aws.FIPSEndpointState) : Config :=
  {| Region := Region c; Endpoint := Endpoint c; UseFIPSEndpoint := f |}.

Record Session := { sessConfig : Config }.

Record SFN := { clientConfig : Config }.

(** [aws_sdkv1.Config{}] *)
Definition emptyConfig : Config :=
  {| Region := None; Endpoint := None; UseFIPSEndpoint := aws.FIPSEndpointStateUnset |}.

(** Config.MergeIn: every field set in [other] replaces the one of [dst]. *)
Definition MergeIn (dst other : Config) : Config :=
  {| Region := match Region other with Some r => Some r | None => Region dst end;
     Endpoint := match Endpoint other with Some e => Some e | None => Endpoint dst end;
     UseFIPSEndpoint :=
       if decide (UseFIPSEndpoint other = aws.FIPSEndpointStateUnset)
       then UseFIPSEndpoint dst else UseFIPSEndpoint other |}.

(** Session.Copy: a session whose configuration is the merge. *)
Definition Copy (sess : Session) (cfg : Config) : Session :=
  {| sessConfig := MergeIn (sessConfig sess) cfg |}.

(** sfn.New: a client for the session. *)
Definition New (sess : Session) : SFN := {| clientConfig := sessConfig sess |}.

Section NewConn.
Context {ConfigV2 : Type}.

Definition NewConn (config : gmap string (any ConfigV2 Session)) : option SFN :=
  match config !! names.AttrSession with
  | Some (AnySession sess) =>
      let cfg := emptyConfig in
      match config !! names.AttrEndpoint with
      | Some (AnyString endpoint) =>
          let cfg :=
            if decide (endpoint = "") then cfg
            else
              let cfg := withEndpoint cfg (aws.String endpoint) in
              if decide (UseFIPSEndpoint (sessConfig sess) = aws.FIPSEndpointStateEnabled)
              then withUseFIPSEndpoint cfg aws.FIPSEndpointStateDisabled
              else cfg in
          Some (New (Copy sess cfg))
      | _ => None
      end
  | _ => None
  end.

End NewConn.
End sfn.

(** ** The EFS API types the adapter uses (awstypes, efs) *)

Module awstypes.

Definition ErrCodeFileSystemNotFound : string := "FileSystemNotFound".
Definition ErrCodeReplicationNotFound : string := "ReplicationNotFound".

Definition ReplicationStatusEnabled : string := "ENABLED".
Definition ReplicationStatusEnabling : string := "ENABLING".
Definition ReplicationStatusDeleting : string := "DELETING".

Module Destination.
Record t := {
  FileSystemId : option string;
  Region : option string;
  Status : option string
}.
End Destination.

Module DestinationToCreate.
Record t := {
  AvailabilityZoneName : option string;
  FileSystemId : option string;
  KmsKeyId : option string;
  Region : option string
}.
Definition empty : t :=
  {| AvailabilityZoneName := None; FileSystemId := None; KmsKeyId := None; Region := None |}.
End DestinationToCreate.

Module ReplicationConfigurationDescription.
Record t := {
  CreationTime : option Z;
  Destinations : list (option Destination.t);
  OriginalSourceFileSystemArn : option string;
  SourceFileSystemArn : option string;
  SourceFileSystemId : option string;
  SourceFileSystemRegion : option string
}.
End ReplicationConfigurationDescription.

End awstypes.

Module efs.

Module CreateReplicationConfigurationInput.
Record t := {
  SourceFileSystemId : option string;
  Destinations : list (option awstypes.DestinationToCreate.t)
}.
End CreateReplicationConfigurationInput.

Module DeleteReplicationConfigurationInput.
Record t := { SourceFileSystemId : option string }.
End DeleteReplicationConfigurationInput.

Module DescribeReplicationConfigurationsInput.
Record t := { FileSystemId : option string }.
End DescribeReplicationConfigurationsInput.

Module DescribeReplicationConfigurationsOutput.
Record t := {
  Replications : list (option awstypes.ReplicationConfigurationDescription.t)
}.
End DescribeReplicationConfigurationsOutput.

(** The two clients the adapter obtains from the provider:
    [meta.EFSClient(ctx)] and [meta.EFSConnForRegion(ctx, region)]. *)
Inductive Client :=
| EFSClient
| EFSConnForRegion (region : string).

End efs.

Abbreviation Description := awstypes.ReplicationConfigurationDescription.t.
Abbreviation DescribeInput := efs.DescribeReplicationConfigurationsInput.t.
Abbreviation DescribeOutput := efs.DescribeReplicationConfigurationsOutput.t.
Abbreviation CreateInput := efs.CreateReplicationConfigurationInput.t.
Abbreviation DeleteInput := efs.DeleteReplicationConfigurationInput.t.

(** ** Errors *)

(** The error values that reach the adapter: what the SDK returns, what the
    retry helpers and tfresource build, and [fmt.Errorf] wrappers. *)
Inductive error :=
| APIError (code : string) (text : string)
| OtherError (text : string)
| NotFoundError (LastError : option error) (LastRequest : option DescribeInput)
    (Message : string) (Retries : nat)
| UnexpectedStateError (LastError : option error) (State : string)
    (ExpectedState : list string)
| TimeoutError (LastError : option error) (LastState : string) (Timeout : Z)
    (ExpectedState : list string)
| EmptyResultError (LastRequest : option DescribeInput)
| TooManyResultsError (Count : nat) (LastRequest : option DescribeInput)
| Errorf (text : string) (err : error).

Module tfawserr.

(** Modelled from the spec: tfawserr.ErrCodeEquals belongs to
    aws-sdk-go-base, which is not among the sources. The first API error in
    the error's chain has one of the codes; false for nil. *)
Fixpoint errCodeEquals (err : error) (codes : list string) : bool :=
  match err with
  | APIError code _ => bool_decide (code ∈ codes)
  | Errorf _ err' => errCodeEquals err' codes
  | NotFoundError (Some err') _ _ _ => errCodeEquals err' codes
  | UnexpectedStateError (Some err') _ _ => errCodeEquals err' codes
  | TimeoutError (Some err') _ _ _ => errCodeEquals err' codes
  | _ => false
  end.

Definition ErrCodeEquals (err : option error) (codes : list string) : bool :=
  match err with
  | Some e => errCodeEquals e codes
  | None => false
  end.

End tfawserr.

Module tfresource.

(** Modelled from the spec: internal/tfresource is not among the sources.
    NotFound holds of an error whose chain has a retry.NotFoundError, an
    empty-result error or a too-many-results error; false for nil. *)
Fixpoint notFound (err : error) : bool :=
  match err with
  | NotFoundError _ _ _ _ => true
  | EmptyResultError _ => true
  | TooManyResultsError _ _ => true
  | Errorf _ err' => notFound err'
  | UnexpectedStateError (Some err') _ _ => notFound err'
  | TimeoutError (Some err') _ _ _ => notFound err'
  | _ => false
  end.

Definition NotFound (err : option error) : bool :=
  match err with
  | Some e => notFound e
  | None => false
  end.

Definition NewEmptyResultError (lastRequest : option DescribeInput) : error :=
  EmptyResultError lastRequest.

Definition NewTooManyResultsError (count : nat) (lastRequest : option DescribeInput) : error :=
  TooManyResultsError count lastRequest.

(** Modelled from the spec: AssertSinglePtrResult of internal/tfresource:
    the only element of the slice when it has exactly one, non-nil. *)
Definition AssertSinglePtrResult {T : Type} (a : list (option T)) : option T * option error :=
  match a with
  | [] => (None, Some (NewEmptyResultError None))
  | [None] => (None, Some (NewEmptyResultError None))
  | [Some x] => (Some x, None)
  | _ => (None, Some (NewTooManyResultsError (length a) None))
  end.

End tfresource.

(** ** Diagnostics *)

Module diag.

Inductive Severity := Error | Warning.

Record Diagnostic := {
  severity : Severity;
  Summary : string
}.

Abbreviation Diagnostics := (list Diagnostic).

End diag.

(** ** Resource data *)

Module schema.

(** An [interface{}] stored under a key of a [map[string]interface{}]. *)
Inductive attr :=
| ANil
| AString (s : string)
| AOther.

(** An [interface{}] element of a list attribute: a
    [map[string]interface{}] (possibly the nil map), or anything else. *)
Inductive item :=
| INotMap
| IMap (m : option (gmap string attr)).

Inductive timeoutKey := TimeoutCreate | TimeoutDelete.

(** schema.ResourceData for this resource's schema. *)
Record ResourceData := {
  Id : string;
  IsNewResource : bool;
  Timeout : timeoutKey -> Z;
  creation_time : string;
  destination : list item;
  original_source_file_system_arn : string;
  source_file_system_arn : string;
  source_file_system_id : string;
  source_file_system_region : string
}.

Definition SetId (v : string) (d : ResourceData) : ResourceData :=
  {| Id := v; IsNewResource := IsNewResource d; Timeout := Timeout d;
     creation_time := creation_time d; destination := destination d;
     original_source_file_system_arn := original_source_file_system_arn d;
     source_file_system_arn := source_file_system_arn d;
     source_file_system_id := source_file_system_id d;
     source_file_system_region := source_file_system_region d |}.

Definition Set_creation_time (v : string) (d : ResourceData) : ResourceData :=
  {| Id := Id d; IsNewResource := IsNewResource d; Timeout := Timeout d;
     creation_time := v; destination := destination d;
     original_source_file_system_arn := original_source_file_system_arn d;
     source_file_system_arn := source_file_system_arn d;
     source_file_system_id := source_file_system_id d;
     source_file_system_region := source_file_system_region d |}.

(** The string of a value written under a key of a block: the empty string
    for a missing key, nil, or anything that is not a string. *)
Definition stringOf (a : option attr) : string :=
  match a with
  | Some (AString v) => v
  | _ => ""
  end.

(** A destination block as the resource data reads it back once it is
    written: every attribute of the block's schema is there, each a string,
    empty where the written map had no value. *)
Definition readBack (tfMap : gmap string attr) : gmap string attr :=
  <["availability_zone_name" := AString (stringOf (tfMap !! "availability_zone_name"))]>
    (<[names.AttrFileSystemID := AString (stringOf (tfMap !! names.AttrFileSystemID))]>
       (<[names.AttrKMSKeyID := AString (stringOf (tfMap !! names.AttrKMSKeyID))]>
          (<[names.AttrRegion := AString (stringOf (tfMap !! names.AttrRegion))]>
             (<[names.AttrStatus := AString (stringOf (tfMap !! names.AttrStatus))]> ∅)))).

(** An element of the written list as it reads back; the read only ever
    writes non-nil maps. *)
Definition readBackItem (raw : item) : item :=
  match raw with
  | IMap (Some tfMap) => IMap (Some (readBack tfMap))
  | IMap None => IMap (Some (readBack ∅))
  | INotMap => INotMap
  end.

(** [d.Set(names.AttrDestination, v)]: what [d.Get] returns afterwards is
    the list read back through the schema of the block. *)
Definition Set_destination (v : list item) (d : ResourceData) : ResourceData :=
  {| Id := Id d; IsNewResource := IsNewResource d; Timeout := Timeout d;
     creation_time := creation_time d; destination := map readBackItem v;
     original_source_file_system_arn := original_source_file_system_arn d;
     source_file_system_arn := source_file_system_arn d;
     source_file_system_id := source_file_system_id d;
     source_file_system_region := source_file_system_region d |}.

Definition Set_original_source_file_system_arn (v : string) (d : ResourceData) : ResourceData :=
  {| Id := Id d; IsNewResource := IsNewResource d; Timeout := Timeout d;
     creation_time := creation_time d; destination := destination d;
     original_source_file_system_arn := v;
     source_file_system_arn := source_file_system_arn d;
     source_file_system_id := source_file_system_id d;
     source_file_system_region := source_file_system_region d |}.

Definition Set_source_file_system_arn (v : string) (d : ResourceData) : ResourceData :=
  {| Id := Id d; IsNewResource := IsNewResource d; Timeout := Timeout d;
     creation_time := creation_time d; destination := destination d;
     original_source_file_system_arn := original_source_file_system_arn d;
     source_file_system_arn := v;
     source_file_system_id := source_file_system_id d;
     source_file_system_region := source_file_system_region d |}.

Definition Set_source_file_system_id (v : string) (d : ResourceData) : ResourceData :=
  {| Id := Id d; IsNewResource := IsNewResource d; Timeout := Timeout d;
     creation_time := creation_time d; destination := destination d;
     original_source_file_system_arn := original_source_file_system_arn d;
     source_file_system_arn := source_file_system_arn d;
     source_file_system_id := v;
     source_file_system_region := source_file_system_region d |}.

Definition Set_source_file_system_region (v : string) (d : ResourceData) : ResourceData :=
  {| Id := Id d; IsNewResource := IsNewResource d; Timeout := Timeout d;
     creation_time := creation_time d; destination := destination d;
     original_source_file_system_arn := original_source_file_system_arn d;
     source_file_system_arn := source_file_system_arn d;
     source_file_system_id := source_file_system_id d;
     source_file_system_region := v |}.

(** [d.GetOk(names.AttrDestination)]: the list and whether it is set to a
    non-zero value, that is, non-empty. *)
Definition GetOk_destination (d : ResourceData) : list item * bool :=
  (destination d, bool_decide (destination d ≠ [])).

End schema.

(** ** The world the adapter runs in *)

(** An API call, with the client it was made through. *)
Inductive call :=
| CallCreate (conn : efs.Client) (input : CreateInput)
| CallDelete (conn : efs.Client) (input : DeleteInput)
| CallDescribe (conn : efs.Client) (input : DescribeInput).

(** What lies outside the adapter. [R] is the state of the remote service;
    each API call answers from it and moves it. A paginated describe
    answers with the pages the SDK hands to the callback, each with its
    lastPage flag, and the error the pager ends with. [pollsWithin] is the
    number of refreshes a poll loop completes before a deadline of the given
    duration; [libraryText] renders the errors the libraries define;
    [timeText] is [aws.TimeValue(t).String()]; [checkDestination] is the error
    [d.Set] finds in a destination list, if any. *)
Record Env (R : Type) := {
  apiCreate : efs.Client -> CreateInput -> R -> option error * R;
  apiDelete : efs.Client -> DeleteInput -> R -> option error * R;
  apiDescribe : efs.Client -> DescribeInput -> R
                -> list (option DescribeOutput * bool) * option error * R;
  pollsWithin : Z -> nat;
  libraryText : error -> string;
  timeText : option Z -> string;
  checkDestination : list schema.item -> option error
}.
Arguments apiCreate {R} _ _ _ _.
Arguments apiDelete {R} _ _ _ _.
Arguments apiDescribe {R} _ _ _ _.
Arguments pollsWithin {R} _ _.
Arguments libraryText {R} _ _.
Arguments timeText {R} _ _.
Arguments checkDestination {R} _ _.

Record State (R : Type) := {
  remote : R;
  calls : list call;
  data : schema.ResourceData
}.
Arguments remote {R} _.
Arguments calls {R} _.
Arguments data {R} _.

(** A Go function: from a state to a result and a state, or a panic. *)
Definition M (R A : Type) : Type := State R -> option (A * State R).

Definition ret {R A : Type} (a : A) : M R A := fun s => Some (a, s).

Definition bind {R A B : Type} (m : M R A) (k : A -> M R B) : M R B :=
  fun s => match m s with
           | Some (a, s') => k a s'
           | None => None
           end.

Definition panic {R A : Type} : M R A := fun _ => None.

Declare Scope go_scope.
Delimit Scope go_scope with go.
Notation "'let*' x ':=' c 'in' k" := (bind c (fun x => k))
  (at level 10, x name, c at level 200, k at level 200) : go_scope.
Notation "'let*' ' pat ':=' c 'in' k" := (bind c (fun x => match x with pat => k end))
  (at level 10, pat pattern, c at level 200, k at level 200) : go_scope.
Local Open Scope go_scope.

Definition getData {R : Type} : M R schema.ResourceData :=
  fun s => Some (data s, s).

Definition modifyData {R : Type} (f : schema.ResourceData -> schema.ResourceData) : M R unit :=
  fun s => Some (tt, {| remote := remote s; calls := calls s; data := f (data s) |}).

(** The state after an API call: the service has moved and the call is
    logged. *)
Definition called {R : Type} (s : State R) (c : call) (r : R) : State R :=
  {| remote := r; calls := calls s ++ [c]; data := data s |}.

(** ** retry.StateChangeConf *)

Module retry.

Record StateChangeConf (R T : Type) := {
  Pending : list string;
  Target : list string;
  Refresh : M R (option T * string * option error);
  Timeout : Z;
  ContinuousTargetOccurence : nat;
  NotFoundChecks : nat
}.
Arguments Pending {R T} _.
Arguments Target {R T} _.
Arguments Refresh {R T} _.
Arguments Timeout {R T} _.
Arguments ContinuousTargetOccurence {R T} _.
Arguments NotFoundChecks {R T} _.

(** The loop over [conf.Target]: every match counts an occurrence, and the
    wait is done when the count reaches [cto]. *)
Fixpoint checkTarget (target : list string) (currentState : string) (cto : nat)
    (found : bool) (targetOccurence : nat) : bool * bool * nat :=
  match target with
  | [] => (false, found, targetOccurence)
  | allowed :: rest =>
      if decide (currentState = allowed) then
        let targetOccurence := S targetOccurence in
        if decide (cto = targetOccurence) then (true, true, targetOccurence)
        else checkTarget rest currentState cto true targetOccurence
      else checkTarget rest currentState cto found targetOccurence
  end.

(** The loop over [conf.Pending]: a match resets the occurrence count. *)
Fixpoint checkPending (pending : list string) (currentState : string)
    (found : bool) (targetOccurence : nat) : bool * nat :=
  match pending with
  | [] => (found, targetOccurence)
  | allowed :: rest =>
      if decide (currentState = allowed) then (true, 0)
      else checkPending rest currentState found targetOccurence
  end.

Section WaitForState.
Context {R T : Type} (env : Env R).

(** Modelled from the spec: the refresh loop of
    StateChangeConf.WaitForStateContext, which belongs to the plugin SDK and
    is not among the sources. [polls] is the number of refreshes left before
    the deadline; when none is left the wait ends in a timeout error. An
    error of the refresh ends the wait; an absent result counts towards the
    target when the target is empty, and towards NotFoundChecks otherwise; a
    found result is matched against Target, then against Pending, and a
    state in neither is an unexpected-state error. *)
Fixpoint refreshLoop (conf : StateChangeConf R T) (notFoundChecks cto : nat)
    (polls notfoundTick targetOccurence : nat) (lastState : string)
  : M R (option T * option error) :=
  match polls with
  | O => ret (None, Some (TimeoutError None lastState (Timeout conf) (Target conf)))
  | S polls =>
      let* '(res, currentState, err) := Refresh conf in
      match err with
      | Some _ => ret (res, err)
      | None =>
          match res with
          | None =>
              if decide (Target conf = []) then
                let targetOccurence := S targetOccurence in
                if decide (cto = targetOccurence) then ret (res, None)
                else refreshLoop conf notFoundChecks cto polls notfoundTick
                       targetOccurence currentState
              else
                let notfoundTick := S notfoundTick in
                if decide (notFoundChecks < notfoundTick) then
                  ret (res, Some (NotFoundError None None "" notfoundTick))
                else refreshLoop conf notFoundChecks cto polls notfoundTick
                       targetOccurence currentState
          | Some _ =>
              let '(done, found, targetOccurence) :=
                checkTarget (Target conf) currentState cto false targetOccurence in
              if done then ret (res, None)
              else
                let '(found, targetOccurence) :=
                  checkPending (Pending conf) currentState found targetOccurence in
                if negb found && bool_decide (0 < length (Pending conf)) then
                  ret (res, Some (UnexpectedStateError None currentState (Target conf)))
                else refreshLoop conf notFoundChecks cto polls 0
                       targetOccurence currentState
          end
      end
  end.

(** WaitForStateContext: the defaults of NotFoundChecks (20) and
    ContinuousTargetOccurence (1), then the loop. *)
Definition WaitForStateContext (conf : StateChangeConf R T) : M R (option T * option error) :=
  let notFoundChecks :=
    if decide (NotFoundChecks conf = 0) then 20 else NotFoundChecks conf in
  let cto :=
    if decide (ContinuousTargetOccurence conf = 0) then 1
    else ContinuousTargetOccurence conf in
  refreshLoop conf notFoundChecks cto (pollsWithin env (Timeout conf)) 0 0 "".

End WaitForState.
End retry.

(** ** internal/errs/sdkdiag *)

Module sdkdiag.
Import diag.

(** Modelled from the spec: internal/errs/sdkdiag is not among the sources.
    AppendErrorf appends one error diagnostic with the formatted text;
    AppendFromErr appends one error diagnostic with the error's text. *)
Definition AppendErrorf (diags : Diagnostics) (text : string) : Diagnostics :=
  diags ++ [ {| severity := Error; Summary := text |} ].

Definition AppendFromErr (diags : Diagnostics) (text : string) : Diagnostics :=
  diags ++ [ {| severity := Error; Summary := text |} ].

End sdkdiag.

(** ** internal/service/efs/replication_configuration.go *)

Module tfefs.
Import awstypes schema.

(** *** expand and flatten *)

(** [tfMap[k].(string)] with [ok && v != ""]. *)
Definition nonEmptyString (tfMap : gmap string attr) (k : string) : option string :=
  match tfMap !! k with
  | Some (AString v) => if decide (v = "") then None else aws.String v
  | _ => None
  end.

Definition expandDestinationToCreate (tfMap : option (gmap string attr))
  : option DestinationToCreate.t :=
  match tfMap with
  | None => None
  | Some tfMap =>
      Some {| DestinationToCreate.AvailabilityZoneName :=
                nonEmptyString tfMap "availability_zone_name";
              DestinationToCreate.KmsKeyId := nonEmptyString tfMap names.AttrKMSKeyID;
              DestinationToCreate.Region := nonEmptyString tfMap names.AttrRegion;
              DestinationToCreate.FileSystemId :=
                nonEmptyString tfMap names.AttrFileSystemID |}
  end.

(** The loop of expandDestinationsToCreate, appending to [apiObjects]. *)
Fixpoint expandDestinationsLoop (tfList : list item)
    (apiObjects : list (option DestinationToCreate.t)) : list (option DestinationToCreate.t) :=
  match tfList with
  | [] => apiObjects
  | tfMapRaw :: rest =>
      match tfMapRaw with
      | INotMap => expandDestinationsLoop rest apiObjects
      | IMap tfMap =>
          match expandDestinationToCreate tfMap with
          | None => expandDestinationsLoop rest apiObjects
          | Some apiObject => expandDestinationsLoop rest (apiObjects ++ [Some apiObject])
          end
      end
  end.

Definition expandDestinationsToCreate (tfList : list item)
  : list (option DestinationToCreate.t) :=
  if decide (length tfList = 0) then []
  else expandDestinationsLoop tfList [].

Definition setIfNonNil (k : string) (v : option string) (tfMap : gmap string attr)
  : gmap string attr :=
  match v with
  | Some _ => <[k := AString (aws.ToString v)]> tfMap
  | None => tfMap
  end.

Definition flattenDestination (apiObject : option Destination.t) : option (gmap string attr) :=
  match apiObject with
  | None => None
  | Some apiObject =>
      let tfMap : gmap string attr := ∅ in
      let tfMap := setIfNonNil names.AttrFileSystemID (Destination.FileSystemId apiObject) tfMap in
      let tfMap := setIfNonNil names.AttrRegion (Destination.Region apiObject) tfMap in
      let tfMap := setIfNonNil names.AttrStatus (Destination.Status apiObject) tfMap in
      Some tfMap
  end.

Fixpoint flattenDestinationsLoop (apiObjects : list (option Destination.t))
    (tfList : list item) : list item :=
  match apiObjects with
  | [] => tfList
  | None :: rest => flattenDestinationsLoop rest tfList
  | Some apiObject :: rest =>
      flattenDestinationsLoop rest (tfList ++ [IMap (flattenDestination (Some apiObject))])
  end.

Definition flattenDestinations (apiObjects : list (option Destination.t)) : list item :=
  if decide (length apiObjects = 0) then []
  else flattenDestinationsLoop apiObjects [].

(** *** finders *)

Section Adapter.
Context {R : Type} (env : Env R).

(** [err.Error()]. *)
Definition Error (err : error) : string :=
  match err with
  | APIError _ text => text
  | OtherError text => text
  | Errorf text _ => text
  | _ => libraryText env err
  end.

(** fmt.Errorf with a closing [%w]. *)
Definition Errorf_w (prefix : string) (err : error) : error :=
  Errorf (prefix +:+ Error err) err.

Definition CreateReplicationConfiguration (conn : efs.Client) (input : CreateInput)
  : M R (option error) :=
  fun s =>
    let '(err, r) := apiCreate env conn input (remote s) in
    Some (err, called s (CallCreate conn input) r).

Definition DeleteReplicationConfiguration (conn : efs.Client) (input : DeleteInput)
  : M R (option error) :=
  fun s =>
    let '(err, r) := apiDelete env conn input (remote s) in
    Some (err, called s (CallDelete conn input) r).

(** The pager: the callback sees the pages in order until it returns
    false. *)
Fixpoint eachPage {A : Type} (pages : list (option DescribeOutput * bool))
    (fn : option DescribeOutput -> bool -> A -> A * bool) (acc : A) : A :=
  match pages with
  | [] => acc
  | (page, lastPage) :: rest =>
      let '(acc, continue) := fn page lastPage acc in
      if continue then eachPage rest fn acc else acc
  end.

Definition DescribeReplicationConfigurationsPagesWithContext {A : Type}
    (conn : efs.Client) (input : DescribeInput)
    (fn : option DescribeOutput -> bool -> A -> A * bool) (acc : A)
  : M R (A * option error) :=
  fun s =>
    let '(pages, err, r) := apiDescribe env conn input (remote s) in
    Some ((eachPage pages fn acc, err), called s (CallDescribe conn input) r).

(** The [for _, v := range page.Replications] loop. *)
Fixpoint appendNonNil (replications output : list (option Description))
  : list (option Description) :=
  match replications with
  | [] => output
  | None :: rest => appendNonNil rest output
  | Some v :: rest => appendNonNil rest (output ++ [Some v])
  end.

(** The callback of findReplicationConfigurations, on the captured
    [output]. *)
Definition collectPage (page : option DescribeOutput) (lastPage : bool)
    (output : list (option Description)) : list (option Description) * bool :=
  match page with
  | None => (output, negb lastPage)
  | Some page =>
      (appendNonNil (efs.DescribeReplicationConfigurationsOutput.Replications page) output,
       negb lastPage)
  end.

Definition findReplicationConfigurations (conn : efs.Client) (input : DescribeInput)
  : M R (list (option Description) * option error) :=
  let* '(output, err) :=
    DescribeReplicationConfigurationsPagesWithContext conn input collectPage [] in
  if tfawserr.ErrCodeEquals err
       [ErrCodeFileSystemNotFound; ErrCodeReplicationNotFound]
  then ret ([], Some (NotFoundError err (Some input) "" 0))
  else
    match err with
    | Some _ => ret ([], err)
    | None => ret (output, None)
    end.

Definition findReplicationConfiguration (conn : efs.Client) (input : DescribeInput)
  : M R (option Description * option error) :=
  let* '(output, err) := findReplicationConfigurations conn input in
  match err with
  | Some _ => ret (None, err)
  | None => ret (tfresource.AssertSinglePtrResult output)
  end.

Definition FindReplicationConfigurationByID (conn : efs.Client) (id : string)
  : M R (option Description * option error) :=
  let input :=
    {| efs.DescribeReplicationConfigurationsInput.FileSystemId := aws.String id |} in
  let* '(output, err) := findReplicationConfiguration conn input in
  match err with
  | Some _ => ret (None, err)
  | None =>
      match output with
      | None => panic
      | Some output' =>
          match ReplicationConfigurationDescription.Destinations output' with
          | [] => ret (None, Some (tfresource.NewEmptyResultError (Some input)))
          | None :: _ => ret (None, Some (tfresource.NewEmptyResultError (Some input)))
          | Some _ :: _ => ret (output, None)
          end
      end
  end.

(** *** status and waiters *)

Definition statusReplicationConfiguration (conn : efs.Client) (id : string)
  : M R (option Description * string * option error) :=
  let* '(output, err) := FindReplicationConfigurationByID conn id in
  if tfresource.NotFound err then ret (None, "", None)
  else
    match err with
    | Some _ => ret (None, "", err)
    | None =>
        match output with
        | None => panic
        | Some output' =>
            match ReplicationConfigurationDescription.Destinations output' !! 0 with
            | Some (Some destination0) =>
                ret (output, aws.ToString (Destination.Status destination0), None)
            | _ => panic
            end
        end
    end.

Definition waitReplicationConfigurationCreated (conn : efs.Client) (id : string)
    (timeout : Z) : M R (option Description * option error) :=
  let stateConf :=
    {| retry.Pending := [ReplicationStatusEnabling];
       retry.Target := [ReplicationStatusEnabled];
       retry.Refresh := statusReplicationConfiguration conn id;
       retry.Timeout := timeout;
       retry.ContinuousTargetOccurence := 0;
       retry.NotFoundChecks := 0 |} in
  let* '(outputRaw, err) := retry.WaitForStateContext env stateConf in
  match outputRaw with
  | Some output => ret (Some output, err)
  | None => ret (None, err)
  end.

Definition waitReplicationConfigurationDeleted (conn : efs.Client) (id : string)
    (timeout : Z) : M R (option Description * option error) :=
  let stateConf :=
    {| retry.Pending := [ReplicationStatusDeleting];
       retry.Target := [];
       retry.Refresh := statusReplicationConfiguration conn id;
       retry.Timeout := timeout;
       retry.ContinuousTargetOccurence := 2;
       retry.NotFoundChecks := 0 |} in
  let* '(outputRaw, err) := retry.WaitForStateContext env stateConf in
  match outputRaw with
  | Some output => ret (Some output, err)
  | None => ret (None, err)
  end.

(** *** delete *)

Definition deleteReplicationConfiguration (conn : efs.Client) (fsID : string)
    (timeout : Z) : M R (option error) :=
  let* err :=
    DeleteReplicationConfiguration conn
      {| efs.DeleteReplicationConfigurationInput.SourceFileSystemId := aws.String fsID |} in
  if tfawserr.ErrCodeEquals err
       [ErrCodeFileSystemNotFound; ErrCodeReplicationNotFound]
  then ret None
  else
    match err with
    | Some err =>
        ret (Some (Errorf_w ("deleting EFS Replication Configuration (" +:+ fsID +:+ "): ") err))
    | None =>
        let* '(_, err) := waitReplicationConfigurationDeleted conn fsID timeout in
        match err with
        | Some err =>
            ret (Some (Errorf_w
                         ("waiting for EFS Replication Configuration (" +:+ fsID +:+ ") delete: ")
                         err))
        | None => ret None
        end
    end.

Definition resourceReplicationConfigurationDelete : M R diag.Diagnostics :=
  let diags : diag.Diagnostics := [] in
  let conn := efs.EFSClient in
  let* d := getData in
  match expandDestinationsToCreate (destination d) !! 0 with
  | Some (Some destination0) =>
      let regionConn :=
        efs.EFSConnForRegion (aws.ToString (DestinationToCreate.Region destination0)) in
      let* err := deleteReplicationConfiguration regionConn (Id d) (Timeout d TimeoutDelete) in
      match err with
      | Some err => ret (sdkdiag.AppendFromErr diags (Error err))
      | None =>
          let* d := getData in
          let* err := deleteReplicationConfiguration conn (Id d) (Timeout d TimeoutDelete) in
          match err with
          | Some err => ret (sdkdiag.AppendFromErr diags (Error err))
          | None => ret diags
          end
      end
  | _ => panic
  end.

(** *** read *)

(** The [copy] closure of resourceReplicationConfigurationRead:
    [destinations[i][k] = v[i][k]], with its index and type-assertion
    panics. *)
Definition copyKey (v : list item) (i : nat) (k : string) (destinations : list item)
  : option (list item) :=
  match destinations !! i, v !! i with
  | Some (IMap (Some dst)), Some (IMap src) =>
      let value :=
        match src with
        | Some src => match src !! k with Some a => a | None => ANil end
        | None => ANil
        end in
      Some (<[i := IMap (Some (<[k := value]> dst))]> destinations)
  | _, _ => None
  end.

Definition lift {A : Type} (o : option A) : M R A :=
  match o with
  | Some a => ret a
  | None => panic
  end.

Definition resourceReplicationConfigurationRead : M R diag.Diagnostics :=
  let diags : diag.Diagnostics := [] in
  let conn := efs.EFSClient in
  let* d := getData in
  let* '(replication, err) := FindReplicationConfigurationByID conn (Id d) in
  if negb (IsNewResource d) && tfresource.NotFound err then
    let* _ := modifyData (SetId "") in
    ret diags
  else
    match err with
    | Some err =>
        ret (sdkdiag.AppendErrorf diags
               ("reading EFS Replication Configuration (" +:+ Id d +:+ "): " +:+ Error err))
    | None =>
        let* replication := lift replication in
        let destinations :=
          flattenDestinations (ReplicationConfigurationDescription.Destinations replication) in
        let* destinations :=
          (let '(v, ok) := GetOk_destination d in
           if ok && bool_decide (0 < length v) then
             let* destinations := lift (copyKey v 0 "availability_zone_name" destinations) in
             lift (copyKey v 0 names.AttrKMSKeyID destinations)
           else ret destinations) in
        let* _ := modifyData (Set_creation_time
                    (timeText env (ReplicationConfigurationDescription.CreationTime replication))) in
        match checkDestination env destinations with
        | Some err =>
            ret (sdkdiag.AppendErrorf diags ("setting destination: " +:+ Error err))
        | None =>
            let* _ := modifyData (Set_destination destinations) in
            let* _ := modifyData (Set_original_source_file_system_arn
                        (aws.ToString
                           (ReplicationConfigurationDescription.OriginalSourceFileSystemArn
                              replication))) in
            let* _ := modifyData (Set_source_file_system_arn
                        (aws.ToString
                           (ReplicationConfigurationDescription.SourceFileSystemArn replication))) in
            let* _ := modifyData (Set_source_file_system_id
                        (aws.ToString
                           (ReplicationConfigurationDescription.SourceFileSystemId replication))) in
            let* _ := modifyData (Set_source_file_system_region
                        (aws.ToString
                           (ReplicationConfigurationDescription.SourceFileSystemRegion
                              replication))) in
            ret diags
        end
    end.

(** *** create *)

Definition resourceReplicationConfigurationCreate : M R diag.Diagnostics :=
  let diags : diag.Diagnostics := [] in
  let conn := efs.EFSClient in
  let* d := getData in
  let fsID := source_file_system_id d in
  let input :=
    {| efs.CreateReplicationConfigurationInput.SourceFileSystemId := aws.String fsID;
       efs.CreateReplicationConfigurationInput.Destinations := [] |} in
  let input :=
    let '(v, ok) := GetOk_destination d in
    if ok && bool_decide (0 < length v) then
      {| efs.CreateReplicationConfigurationInput.SourceFileSystemId :=
           efs.CreateReplicationConfigurationInput.SourceFileSystemId input;
         efs.CreateReplicationConfigurationInput.Destinations :=
           expandDestinationsToCreate v |}
    else input in
  let* err := CreateReplicationConfiguration conn input in
  match err with
  | Some err =>
      ret (sdkdiag.AppendErrorf diags
             ("creating EFS Replication Configuration (" +:+ fsID +:+ "): " +:+ Error err))
  | None =>
      let* _ := modifyData (SetId fsID) in
      let* d := getData in
      let* '(_, err) :=
        waitReplicationConfigurationCreated conn (Id d) (Timeout d TimeoutCreate) in
      match err with
      | Some err =>
          let* d := getData in
          ret (sdkdiag.AppendErrorf diags
                 ("waiting for EFS Replication Configuration (" +:+ Id d +:+ ") create: "
                  +:+ Error err))
      | None =>
          let* diags' := resourceReplicationConfigurationRead in
          ret (diags ++ diags')
      end
  end.

End Adapter.
End tfefs.

(** * Specification vocabulary *)

Module spec.

(** The pages the callback sees when it stops at the first page flagged as
    the last one. *)
Fixpoint delivered (pages : list (option DescribeOutput * bool))
  : list (option DescribeOutput * bool) :=
  match pages with
  | [] => []
  | (page, lastPage) :: rest =>
      (page, lastPage) :: (if lastPage then [] else delivered rest)
  end.

(** The pager flags no page but the final one as the last. *)
Fixpoint lastPageOnlyAtEnd (pages : list (option DescribeOutput * bool)) : bool :=
  match pages with
  | [] => true
  | (_, lastPage) :: rest =>
      match rest with
      | [] => true
      | _ :: _ => negb lastPage && lastPageOnlyAtEnd rest
      end
  end.

(** The non-nil descriptions of the non-nil pages, in page order. *)
Definition nonNilReplications (pages : list (option DescribeOutput * bool))
  : list (option Description) :=
  concat (map (fun p : option DescribeOutput * bool =>
                 match fst p with
                 | None => []
                 | Some page =>
                     filter (fun v => is_Some v)
                       (efs.DescribeReplicationConfigurationsOutput.Replications page)
                 end) pages).

(** The results of [n] successive runs of a refresh function. *)
Fixpoint refreshes {R X : Type} (refresh : M R X) (n : nat) : M R (list X) :=
  match n with
  | O => ret []
  | S n =>
      let* x := refresh in
      let* xs := refreshes refresh n in
      ret (x :: xs)
  end.

(** What a refresh of the status reports: the configuration found in the
    given status, or its absence. *)
Definition found (output : Description) (status : string)
  : option Description * string * option error :=
  (Some output, status, None).

Definition absent : option Description * string * option error :=
  (None, "", None).

(** A refresh result that found the configuration in the given status. *)
Definition statusIs {T : Type} (status : string) (x : option T * string * option error) : bool :=
  match x with
  | (Some _, st, None) => bool_decide (st = status)
  | _ => false
  end.

(** A refresh result the wait for creation goes on after: ENABLING, or
    nothing found. *)
Definition tolerated {T : Type} (x : option T * string * option error) : bool :=
  match x with
  | (Some _, st, None) => bool_decide (st = awstypes.ReplicationStatusEnabling)
  | (None, _, None) => true
  | _ => false
  end.

(** The stateConf of waitReplicationConfigurationCreated and of
    waitReplicationConfigurationDeleted. *)
Definition createdConf {R : Type} (refresh : M R (option Description * string * option error))
    (timeout : Z) : retry.StateChangeConf R Description :=
  {| retry.Pending := [awstypes.ReplicationStatusEnabling];
     retry.Target := [awstypes.ReplicationStatusEnabled];
     retry.Refresh := refresh;
     retry.Timeout := timeout;
     retry.ContinuousTargetOccurence := 0;
     retry.NotFoundChecks := 0 |}.

Definition deletedConf {R : Type} (refresh : M R (option Description * string * option error))
    (timeout : Z) : retry.StateChangeConf R Description :=
  {| retry.Pending := [awstypes.ReplicationStatusDeleting];
     retry.Target := [];
     retry.Refresh := refresh;
     retry.Timeout := timeout;
     retry.ContinuousTargetOccurence := 2;
     retry.NotFoundChecks := 0 |}.

(** The request deleteReplicationConfiguration sends. *)
Definition deleteByID (fsID : string) : DeleteInput :=
  {| efs.DeleteReplicationConfigurationInput.SourceFileSystemId := aws.String fsID |}.

(** One error diagnostic. *)
Definition errorDiag (text : string) : diag.Diagnostics :=
  [ {| diag.severity := diag.Error; diag.Summary := text |} ].

(** The state once the resource ID is set. *)
Definition withId {R : Type} (s : State R) (id : string) : State R :=
  {| remote := remote s; calls := calls s; data := schema.SetId id (data s) |}.

(** The request FindReplicationConfigurationByID sends. *)
Definition byID (id : string) : DescribeInput :=
  {| efs.DescribeReplicationConfigurationsInput.FileSystemId := aws.String id |}.

End spec.

(** * A scripted service to run the adapter on *)

Module example.
Import awstypes.

(** The remote service as a script: the reply to a create, the reply to a
    delete, and the answers to the describe calls still to come. When the
    script has run out, the configuration is gone. *)
Record script := {
  createReply : option error;
  deleteReply : option error;
  describes : list (list (option DescribeOutput * bool) * option error)
}.

Definition gone : error := APIError ErrCodeReplicationNotFound "replication not found".

Definition denied : error := APIError "AccessDenied" "access denied".

Definition env : Env script :=
  {| apiCreate := fun _ _ r => (createReply r, r);
     apiDelete := fun _ _ r => (deleteReply r, r);
     apiDescribe := fun _ _ r =>
       match describes r with
       | [] => ([], Some gone, r)
       | (pages, err) :: rest =>
           (pages, err,
            {| createReply := createReply r; deleteReply := deleteReply r;
               describes := rest |})
       end;
     pollsWithin := fun t => Z.to_nat t;
     libraryText := fun _ => "library error";
     timeText := fun _ => "0001-01-01 00:00:00 +0000 UTC";
     checkDestination := fun _ => None |}.

(** A configuration of file system fs-1 with one destination in the given
    status. *)
Definition replication (status : string) : Description :=
  {| ReplicationConfigurationDescription.CreationTime := None;
     ReplicationConfigurationDescription.Destinations :=
       [ Some {| Destination.FileSystemId := Some "fs-2";
                 Destination.Region := Some "eu-west-1";
                 Destination.Status := Some status |} ];
     ReplicationConfigurationDescription.OriginalSourceFileSystemArn := None;
     ReplicationConfigurationDescription.SourceFileSystemArn := None;
     ReplicationConfigurationDescription.SourceFileSystemId := Some "fs-1";
     ReplicationConfigurationDescription.SourceFileSystemRegion := Some "us-east-1" |}.

(** A describe answer of one page with that configuration. *)
Definition answer (status : string) : list (option DescribeOutput * bool) * option error :=
  ([ (Some {| efs.DescribeReplicationConfigurationsOutput.Replications :=
                [ Some (replication status) ] |}, true) ], None).

(** Two pages with a nil page between them and a nil description. *)
Definition threePages : list (option DescribeOutput * bool) :=
  [ (Some {| efs.DescribeReplicationConfigurationsOutput.Replications :=
               [ Some (replication "ENABLED"); None ] |}, false);
    (None, false);
    (Some {| efs.DescribeReplicationConfigurationsOutput.Replications :=
               [ Some (replication "ENABLING") ] |}, true) ].

Definition resource : schema.ResourceData :=
  {| schema.Id := "fs-1";
     schema.IsNewResource := false;
     schema.Timeout := fun _ => 3%Z;
     schema.creation_time := "";
     schema.destination :=
       [ schema.IMap (Some {[ "region" := schema.AString "eu-west-1" ]}) ];
     schema.original_source_file_system_arn := "";
     schema.source_file_system_arn := "";
     schema.source_file_system_id := "fs-1";
     schema.source_file_system_region := "" |}.

Definition state (create delete : option error)
    (answers : list (list (option DescribeOutput * bool) * option error)) : State script :=
  {| remote := {| createReply := create; deleteReply := delete; describes := answers |};
     calls := [];
     data := resource |}.

(** Client configurations with an endpoint override and FIPS enabled. *)
Definition fipsOptions : mediaconvert.Options :=
  {| mediaconvert.Region := "us-east-1";
     mediaconvert.BaseEndpoint := None;
     mediaconvert.UseFIPSEndpoint := aws.FIPSEndpointStateEnabled |}.

Definition fipsSession : sfn.Session :=
  {| sfn.sessConfig :=
       {| sfn.Region := Some "us-east-1";
          sfn.Endpoint := None;
          sfn.UseFIPSEndpoint := aws.FIPSEndpointStateEnabled |} |}.

Definition config : gmap string (any mediaconvert.Options sfn.Session) :=
  {[ "aws_sdkv2_config" := AnyConfig fipsOptions;
     "session" := AnySession fipsSession;
     "endpoint" := AnyString "https://localhost:4566" ]}.

Definition overridden : mediaconvert.Client :=
  {| mediaconvert.options :=
       {| mediaconvert.Region := "us-east-1";
          mediaconvert.BaseEndpoint := Some "https://localhost:4566";
          mediaconvert.UseFIPSEndpoint := aws.FIPSEndpointStateDisabled |} |}.

End example.

(** * Vocabulary for the conversions and for the resource functions *)

Module cover.
Import schema.

(** The non-nil maps among the elements of a list attribute, in order. *)
Definition mapsOf (tfList : list item) : list (gmap string attr) :=
  omap (fun raw => match raw with
                   | IMap (Some tfMap) => Some tfMap
                   | _ => None
                   end) tfList.

(** The non-nil elements of a slice of pointers, in order. *)
Definition nonNil {A : Type} (l : list (option A)) : list A := omap id l.

(** A string pointer as it survives a flatten followed by an expand: the
    empty string is dropped like nil. *)
Definition nonEmpty (p : option string) : option string :=
  match p with
  | Some v => if decide (v = "") then None else Some v
  | None => None
  end.

(** What [m[k]] reads from a possibly nil map: the nil interface when the
    key is missing. *)
Definition index (src : option (gmap string attr)) (k : string) : attr :=
  match src with
  | Some m => match m !! k with Some a => a | None => ANil end
  | None => ANil
  end.

(** The destination list of the configuration is empty, or starts with a
    map: what the schema hands to the read. *)
Definition headIsMap (v : list item) : bool :=
  match v with
  | [] => true
  | IMap _ :: _ => true
  | INotMap :: _ => false
  end.

(** The state with its resource data replaced. *)
Definition withData {R : Type} (s : State R) (d : ResourceData) : State R :=
  {| remote := remote s; calls := calls s; data := d |}.

(** The resource data once the read has set the attributes it reads from
    the API, in the order of the code. *)
Definition readInto {R : Type} (env : Env R) (replication : Description)
    (destinations : list item) (d : ResourceData) : ResourceData :=
  Set_source_file_system_region
    (aws.ToString
       (awstypes.ReplicationConfigurationDescription.SourceFileSystemRegion replication))
    (Set_source_file_system_id
       (aws.ToString
          (awstypes.ReplicationConfigurationDescription.SourceFileSystemId replication))
       (Set_source_file_system_arn
          (aws.ToString
             (awstypes.ReplicationConfigurationDescription.SourceFileSystemArn replication))
          (Set_original_source_file_system_arn
             (aws.ToString
                (awstypes.ReplicationConfigurationDescription.OriginalSourceFileSystemArn
                   replication))
             (Set_destination destinations
                (Set_creation_time
                   (timeText env
                      (awstypes.ReplicationConfigurationDescription.CreationTime replication))
                   d))))).

(** The request the create sends. *)
Definition createInput (d : ResourceData) : CreateInput :=
  {| efs.CreateReplicationConfigurationInput.SourceFileSystemId :=
       aws.String (source_file_system_id d);
     efs.CreateReplicationConfigurationInput.Destinations :=
       tfefs.expandDestinationsToCreate (destination d) |}.

(** The runs of absent results in a list of refresh results stay within
    what a wait tolerates: [tick] absent results precede the list, and no
    more than [checks] come in a row. *)
Fixpoint notFoundWithin {T : Type} (checks tick : nat)
    (obs : list (option T * string * option error)) : bool :=
  match obs with
  | [] => true
  | (None, _, None) :: rest =>
      bool_decide (S tick <= checks) && notFoundWithin checks (S tick) rest
  | _ :: rest => notFoundWithin checks 0 rest
  end.

(** The string a destination block holds under a key, when it holds one
    that is not empty. *)
Definition blockString (tfMap : gmap string attr) (k : string) : option string :=
  nonEmpty (match tfMap !! k with
            | Some (AString v) => Some v
            | _ => None
            end).

(** The destination the API is asked to create for a block of the
    configuration. *)
Definition destinationRequest (tfMap : gmap string attr) : awstypes.DestinationToCreate.t :=
  {| awstypes.DestinationToCreate.AvailabilityZoneName :=
       blockString tfMap "availability_zone_name";
     awstypes.DestinationToCreate.FileSystemId := blockString tfMap "file_system_id";
     awstypes.DestinationToCreate.KmsKeyId := blockString tfMap "kms_key_id";
     awstypes.DestinationToCreate.Region := blockString tfMap "region" |}.

(** The request a create is to send for the resource data: the source file
    system ID, and one destination for each block of the configuration. *)
Definition createRequest (d : ResourceData) : CreateInput :=
  {| efs.CreateReplicationConfigurationInput.SourceFileSystemId :=
       Some (source_file_system_id d);
     efs.CreateReplicationConfigurationInput.Destinations :=
       map (fun tfMap => Some (destinationRequest tfMap)) (mapsOf (destination d)) |}.

Definition isCreate (c : call) : bool :=
  match c with
  | CallCreate _ _ => true
  | _ => false
  end.

End cover.

(** * More states to run the adapter on *)

Module scenario.

Definition resourceWith (isNew : bool) (dest : list schema.item) : schema.ResourceData :=
  {| schema.Id := "fs-1";
     schema.IsNewResource := isNew;
     schema.Timeout := fun _ => 3%Z;
     schema.creation_time := "";
     schema.destination := dest;
     schema.original_source_file_system_arn := "";
     schema.source_file_system_arn := "";
     schema.source_file_system_id := "fs-1";
     schema.source_file_system_region := "" |}.

Definition stateWith (d : schema.ResourceData) (create delete : option error)
    (answers : list (list (option DescribeOutput * bool) * option error))
  : State example.script :=
  {| remote := {| example.createReply := create; example.deleteReply := delete;
                  example.describes := answers |};
     calls := [];
     data := d |}.

(** A destination block that names an availability zone and a key. *)
Definition oneZone : list schema.item :=
  [ schema.IMap (Some {[ "availability_zone_name" := schema.AString "eu-west-1a";
                         "kms_key_id" := schema.AString "key-1" ]}) ].

Definition destinationMap : gmap string schema.attr :=
  {[ "region" := schema.AString "eu-west-1";
     "kms_key_id" := schema.AString "";
     "file_system_id" := schema.AOther ]}.

(** A resource with a destination block, not new, and the service
    answering with an enabled configuration. *)
Definition configured : State example.script :=
  stateWith (resourceWith false oneZone) None None [example.answer "ENABLED"].

Definition described (s : State example.script) : State example.script :=
  called s (CallDescribe efs.EFSClient (spec.byID "fs-1"))
    {| example.createReply := None; example.deleteReply := None; example.describes := [] |}.



(** A planned resource: no ID yet, one destination block as the schema
    hands it over, with a Region and a key. *)
Definition planned : schema.ResourceData :=
  {| schema.Id := "";
     schema.IsNewResource := true;
     schema.Timeout := fun _ => 3%Z;
     schema.creation_time := "";
     schema.destination :=
       [ schema.IMap (Some {[ "availability_zone_name" := schema.AString "";
                              "file_system_id" := schema.AString "";
                              "kms_key_id" := schema.AString "key-1";
                              "region" := schema.AString "eu-west-1";
                              "status" := schema.AString "" ]}) ];
     schema.original_source_file_system_arn := "";
     schema.source_file_system_arn := "";
     schema.source_file_system_id := "fs-1";
     schema.source_file_system_region := "" |}.

Definition plannedRequest : CreateInput :=
  {| efs.CreateReplicationConfigurationInput.SourceFileSystemId := Some "fs-1";
     efs.CreateReplicationConfigurationInput.Destinations :=
       [ Some {| awstypes.DestinationToCreate.AvailabilityZoneName := None;
                 awstypes.DestinationToCreate.FileSystemId := None;
                 awstypes.DestinationToCreate.KmsKeyId := Some "key-1";
                 awstypes.DestinationToCreate.Region := Some "eu-west-1" |} ] |}.

(** The service accepts the create; the configuration is not found at
    first, then enabling, then enabled. *)
Definition creating : State example.script :=
  stateWith planned None None
    [([], Some example.gone); example.answer "ENABLING"; example.answer "ENABLED";
     example.answer "ENABLED"].

(** The state the create leaves: the create call, three polls and the
    describe of the read; the ID set, the attributes read. *)
Definition created : State example.script :=
  {| remote := {| example.createReply := None; example.deleteReply := None;
                  example.describes := [] |};
     calls := CallCreate efs.EFSClient plannedRequest
              :: replicate 4 (CallDescribe efs.EFSClient (spec.byID "fs-1"));
     data :=
       {| schema.Id := "fs-1";
          schema.IsNewResource := true;
          schema.Timeout := fun _ => 3%Z;
          schema.creation_time := "0001-01-01 00:00:00 +0000 UTC";
          schema.destination :=
            [ schema.IMap (Some {[ "availability_zone_name" := schema.AString "";
                                   "file_system_id" := schema.AString "fs-2";
                                   "kms_key_id" := schema.AString "key-1";
                                   "region" := schema.AString "eu-west-1";
                                   "status" := schema.AString "ENABLED" ]}) ];
          schema.original_source_file_system_arn := "";
          schema.source_file_system_arn := "";
          schema.source_file_system_id := "fs-1";
          schema.source_file_system_region := "us-east-1" |} |}.

(** The service refuses the create, and the state that leaves: the one
    call, the resource data as planned. *)
Definition refusing : State example.script :=
  stateWith planned (Some example.denied) None [example.answer "ENABLED"].

Definition refused : State example.script :=
  {| remote := remote refusing;
     calls := [CallCreate efs.EFSClient plannedRequest];
     data := planned |}.

(** The scripted service behind a schema writer that rejects every
    destination list. *)
Definition strictEnv : Env example.script :=
  {| apiCreate := apiCreate example.env;
     apiDelete := apiDelete example.env;
     apiDescribe := apiDescribe example.env;
     pollsWithin := pollsWithin example.env;
     libraryText := libraryText example.env;
     timeText := timeText example.env;
     checkDestination := fun _ => Some (OtherError "invalid destination") |}.

End scenario.

(** * Theorems *)

Section Finders.
Context {R : Type} (env : Env R).

Lemma appendNonNil_filter (replications output : list (option Description)) :
  tfefs.appendNonNil replications output
  = output ++ filter (fun v => is_Some v) replications.
Proof.
  revert output. induction replications as [|[v|] rest IH]; intros output; simpl.
  - by rewrite app_nil_r.
  - rewrite IH. rewrite filter_cons_True by eauto. by rewrite <- app_assoc.
  - rewrite IH. by rewrite filter_cons_False by (intros [? ?]; discriminate).
Qed.

Lemma eachPage_collectPage pages (output : list (option Description)) :
  tfefs.eachPage pages tfefs.collectPage output
  = output ++ spec.nonNilReplications (spec.delivered pages).
Proof.
  revert output. induction pages as [|[page lastPage] rest IH]; intros output; simpl.
  - by rewrite app_nil_r.
  - unfold spec.nonNilReplications. simpl.
    destruct page as [page|]; simpl.
    + rewrite appendNonNil_filter.
      destruct lastPage; simpl.
      * by rewrite app_nil_r.
      * rewrite IH. by rewrite <- app_assoc.
    + destruct lastPage; simpl.
      * by rewrite app_nil_r.
      * by rewrite IH.
Qed.

Lemma delivered_all pages :
  spec.lastPageOnlyAtEnd pages = true -> spec.delivered pages = pages.
Proof.
  induction pages as [|[page lastPage] rest IH]; simpl; [done|].
  destruct rest as [|p rest'].
  - intros _. by destruct lastPage.
  - intros [Hl Hr]%andb_prop. destruct lastPage; [done|]. by rewrite IH.
Qed.

Lemma findReplicationConfigurations_run conn input (s : State R) pages err r :
  apiDescribe env conn input (remote s) = (pages, err, r) ->
  tfefs.findReplicationConfigurations env conn input s
  = Some ((if tfawserr.ErrCodeEquals err
                [awstypes.ErrCodeFileSystemNotFound; awstypes.ErrCodeReplicationNotFound]
           then ([], Some (NotFoundError err (Some input) "" 0))
           else match err with
                | Some _ => ([], err)
                | None => (spec.nonNilReplications (spec.delivered pages), None)
                end),
          called s (CallDescribe conn input) r).
Proof.
  intros Hd.
  unfold tfefs.findReplicationConfigurations,
    tfefs.DescribeReplicationConfigurationsPagesWithContext, bind.
  rewrite Hd. rewrite eachPage_collectPage. simpl.
  destruct (tfawserr.ErrCodeEquals err _); [done|].
  by destruct err.
Qed.

(** C5: findReplicationConfigurations returns the non-nil descriptions of
    the non-nil pages the pager hands over, concatenated in page order (all
    the pages, when only the final one is flagged as the last); an API error
    with code FileSystemNotFound or ReplicationNotFound becomes a
    retry.NotFoundError that carries the error and the request, and any other
    error is returned as it is. *)
Theorem findReplicationConfigurations_pages conn input (s : State R) pages err r :
  apiDescribe env conn input (remote s) = (pages, err, r) ->
  let s' := called s (CallDescribe conn input) r in
  (err = None ->
     tfefs.findReplicationConfigurations env conn input s
     = Some ((spec.nonNilReplications (spec.delivered pages), None), s')
     /\ (spec.lastPageOnlyAtEnd pages = true -> spec.delivered pages = pages))
  /\ (forall e, err = Some e ->
       tfawserr.errCodeEquals e
         [awstypes.ErrCodeFileSystemNotFound; awstypes.ErrCodeReplicationNotFound] = true ->
       tfefs.findReplicationConfigurations env conn input s
       = Some (([], Some (NotFoundError (Some e) (Some input) "" 0)), s'))
  /\ (forall e, err = Some e ->
       tfawserr.errCodeEquals e
         [awstypes.ErrCodeFileSystemNotFound; awstypes.ErrCodeReplicationNotFound] = false ->
       tfefs.findReplicationConfigurations env conn input s = Some (([], Some e), s')).
Proof.
  intros Hd s'. rewrite (findReplicationConfigurations_run _ _ _ _ _ _ Hd).
  split; [|split].
  - intros ->. simpl. split; [done|]. apply delivered_all.
  - intros e -> He. simpl. by rewrite He.
  - intros e -> He. simpl. by rewrite He.
Qed.

Lemma findReplicationConfiguration_run conn input (s : State R) :
  exists o err r,
    tfefs.findReplicationConfiguration env conn input s
    = Some ((o, err), called s (CallDescribe conn input) r)
    /\ (err = None -> is_Some o).
Proof.
  destruct (apiDescribe env conn input (remote s)) as [[pages err] r] eqn:Hd.
  unfold tfefs.findReplicationConfiguration, bind.
  rewrite (findReplicationConfigurations_run _ _ _ _ _ _ Hd).
  destruct (tfawserr.ErrCodeEquals err _); simpl.
  { eexists _, _, _. split; [reflexivity|]. discriminate. }
  destruct err as [e|]; simpl.
  { eexists _, _, _. split; [reflexivity|]. discriminate. }
  unfold ret.
  destruct (spec.nonNilReplications (spec.delivered pages)) as [|[x|] [|y l]]; simpl;
    eexists _, _, _; (split; [reflexivity|]); try discriminate.
  intros _. eauto.
Qed.

Lemma FindReplicationConfigurationByID_run conn id (s : State R) :
  exists o err r,
    tfefs.FindReplicationConfigurationByID env conn id s
    = Some ((o, err), called s (CallDescribe conn (spec.byID id)) r)
    /\ match err with
       | None => exists output d0 rest,
           o = Some output
           /\ awstypes.ReplicationConfigurationDescription.Destinations output = Some d0 :: rest
       | Some _ => o = None
       end.
Proof.
  destruct (findReplicationConfiguration_run conn (spec.byID id) s) as (o & err & r & Hf & Hsome).
  unfold tfefs.FindReplicationConfigurationByID, bind. fold (spec.byID id). rewrite Hf.
  destruct err as [e|].
  { eexists _, _, _. split; [reflexivity|]. by simpl. }
  destruct (Hsome eq_refl) as [output ->].
  destruct (awstypes.ReplicationConfigurationDescription.Destinations output)
    as [|[d0|] rest] eqn:Hdest; unfold ret.
  - eexists _, _, _. split; [reflexivity|]. by simpl.
  - eexists _, _, _. split; [reflexivity|]. simpl. eauto.
  - eexists _, _, _. split; [reflexivity|]. by simpl.
Qed.

Lemma statusReplicationConfiguration_run conn id (s : State R) :
  exists x r,
    tfefs.statusReplicationConfiguration env conn id s
    = Some (x, called s (CallDescribe conn (spec.byID id)) r)
    /\ (x = spec.absent
        \/ (exists e, x = (None, "", Some e))
        \/ (exists output d0 rest,
              x = spec.found output (aws.ToString (awstypes.Destination.Status d0))
              /\ awstypes.ReplicationConfigurationDescription.Destinations output
                 = Some d0 :: rest)).
Proof.
  destruct (FindReplicationConfigurationByID_run conn id s) as (o & err & r & Hf & Hres).
  unfold tfefs.statusReplicationConfiguration, bind. rewrite Hf.
  destruct (tfresource.NotFound err) eqn:Hnf.
  { eexists _, _. split; [reflexivity|]. by left. }
  destruct err as [e|].
  { eexists _, _. split; [reflexivity|]. right; left. eauto. }
  destruct Hres as (output & d0 & rest & -> & Hdest).
  rewrite Hdest. simpl.
  eexists _, _. split; [reflexivity|]. right; right. eauto.
Qed.

Lemma flattenDestinationsLoop_head apiObjects tfList x :
  tfList !! 0 = Some x -> tfefs.flattenDestinationsLoop apiObjects tfList !! 0 = Some x.
Proof.
  revert tfList. induction apiObjects as [|[apiObject|] rest IH]; intros tfList Hx; simpl.
  - done.
  - apply IH. destruct tfList; [done|]. exact Hx.
  - by apply IH.
Qed.

(** C8: FindReplicationConfigurationByID returns a configuration only when
    its Destinations list starts with a non-nil element, and returns an
    empty-result error for a configuration whose list is empty or starts
    with nil; so neither it nor statusReplicationConfiguration, which reads
    [output.Destinations[0]] unguarded, ever panics, and the flattened
    destination list the read indexes at 0 after a successful lookup starts
    with a map. *)
Theorem FindReplicationConfigurationByID_first_destination conn id (s : State R) :
  (forall output err s',
      tfefs.FindReplicationConfigurationByID env conn id s = Some ((Some output, err), s') ->
      err = None
      /\ exists d0 rest,
          awstypes.ReplicationConfigurationDescription.Destinations output = Some d0 :: rest)
  /\ (forall output s',
      tfefs.findReplicationConfiguration env conn (spec.byID id) s = Some ((Some output, None), s') ->
      awstypes.ReplicationConfigurationDescription.Destinations output !! 0 = None
      \/ awstypes.ReplicationConfigurationDescription.Destinations output !! 0 = Some None ->
      tfefs.FindReplicationConfigurationByID env conn id s
      = Some ((None, Some (tfresource.NewEmptyResultError (Some (spec.byID id)))), s'))
  /\ is_Some (tfefs.FindReplicationConfigurationByID env conn id s)
  /\ is_Some (tfefs.statusReplicationConfiguration env conn id s)
  /\ (forall output err s',
      tfefs.FindReplicationConfigurationByID env conn id s = Some ((Some output, err), s') ->
      exists tfMap,
        tfefs.flattenDestinations
          (awstypes.ReplicationConfigurationDescription.Destinations output) !! 0
        = Some (schema.IMap (Some tfMap))).
Proof.
  split; [|split; [|split; [|split]]].
  - intros output err s' H.
    destruct (FindReplicationConfigurationByID_run conn id s) as (o & err' & r & Hf & Hres).
    rewrite Hf in H. inversion H; subst o err' s'. clear H.
    destruct err as [e|]; [discriminate|].
    split; [done|].
    destruct Hres as (output' & d0 & rest & Ho & Hdest).
    injection Ho as <-. eauto.
  - intros output s' Hf Hd.
    unfold tfefs.FindReplicationConfigurationByID, bind. fold (spec.byID id). rewrite Hf.
    destruct (awstypes.ReplicationConfigurationDescription.Destinations output)
      as [|[d0|] rest]; simpl in Hd; [done| |done].
    destruct Hd as [Hd|Hd]; discriminate.
  - destruct (FindReplicationConfigurationByID_run conn id s) as (o & err & r & Hf & _).
    rewrite Hf. eauto.
  - destruct (statusReplicationConfiguration_run conn id s) as (x & r & Hf & _).
    rewrite Hf. eauto.
  - intros output err s' H.
    destruct (FindReplicationConfigurationByID_run conn id s) as (o & err' & r & Hf & Hres).
    rewrite Hf in H. injection H as -> -> _.
    destruct err as [e|]; [discriminate|].
    destruct Hres as (output' & d0 & rest & Ho & Hdest). injection Ho as <-.
    rewrite Hdest. unfold tfefs.flattenDestinations. simpl.
    eexists. by apply flattenDestinationsLoop_head.
Qed.

End Finders.

Section Waiters.
Context {R : Type} (env : Env R).

Lemma refreshes_S {X : Type} (refresh : M R X) n (s : State R) x s1 :
  refresh s = Some (x, s1) ->
  spec.refreshes refresh (S n) s
  = match spec.refreshes refresh n s1 with
    | Some (xs, s') => Some (x :: xs, s')
    | None => None
    end.
Proof.
  intros H. simpl. unfold bind. rewrite H.
  by destruct (spec.refreshes refresh n s1) as [[xs s']|].
Qed.

Lemma refreshes_length {X : Type} (refresh : M R X) n (s : State R) xs s' :
  spec.refreshes refresh n s = Some (xs, s') -> length xs = n.
Proof.
  revert s xs s'. induction n as [|n IH]; intros s xs s'; simpl.
  - unfold ret. by intros [= <- <-].
  - unfold bind. destruct (refresh s) as [[x s1]|]; [|done].
    destruct (spec.refreshes refresh n s1) as [[xs1 s2]|] eqn:Hn; [|done].
    unfold ret. intros [= <- <-]. simpl. f_equal. eauto.
Qed.

(** Polling the status only describes, through the same client, and leaves
    the resource data alone. *)
Lemma refreshes_status_log conn id n (s : State R) xs s' :
  spec.refreshes (tfefs.statusReplicationConfiguration env conn id) n s = Some (xs, s') ->
  calls s' = calls s ++ replicate n (CallDescribe conn (spec.byID id))
  /\ data s' = data s.
Proof.
  revert s xs s'. induction n as [|n IH]; intros s xs s'.
  - simpl. unfold ret. intros [= <- <-]. by rewrite app_nil_r.
  - destruct (statusReplicationConfiguration_run env conn id s) as (x & r & Hs & _).
    rewrite (refreshes_S _ _ _ _ _ Hs).
    destruct (spec.refreshes _ n _) as [[xs1 s2]|] eqn:Hn; [|done].
    intros [= <- <-]. destruct (IH _ _ _ Hn) as [Hc Hd].
    rewrite Hc, Hd. simpl. by rewrite <- app_assoc.
Qed.

(** One round of the loop that waits for creation. *)
Lemma created_step conn id timeout polls tick last (s s1 : State R) x :
  let status := tfefs.statusReplicationConfiguration env conn id in
  let conf := spec.createdConf status timeout in
  status s = Some (x, s1) ->
  retry.refreshLoop conf 20 1 (S polls) tick 0 last s
  = match x with
    | (res, _, Some e) => Some ((res, Some e), s1)
    | (None, st, None) =>
        if decide (20 < S tick)
        then Some ((None, Some (NotFoundError None None "" (S tick))), s1)
        else retry.refreshLoop conf 20 1 polls (S tick) 0 st s1
    | (Some output, st, None) =>
        if decide (st = awstypes.ReplicationStatusEnabled)
        then Some ((Some output, None), s1)
        else if decide (st = awstypes.ReplicationStatusEnabling)
             then retry.refreshLoop conf 20 1 polls 0 0 st s1
             else Some ((Some output,
                         Some (UnexpectedStateError None st [awstypes.ReplicationStatusEnabled])),
                        s1)
    end.
Proof.
  intros status conf Hs. simpl. unfold bind. rewrite Hs.
  destruct x as [[[output|] st] [e|]]; simpl; try reflexivity.
  - destruct (decide (st = awstypes.ReplicationStatusEnabled)) as [->|Hne]; simpl.
    + reflexivity.
    + destruct (decide (st = awstypes.ReplicationStatusEnabling)) as [->|Hne']; simpl.
      * reflexivity.
      * reflexivity.
  - destruct (decide (20 < S tick)); reflexivity.
Qed.

Lemma refreshes_S_inv {X : Type} (refresh : M R X) n (s : State R) x xs s' :
  spec.refreshes refresh (S n) s = Some (x :: xs, s') ->
  exists s1, refresh s = Some (x, s1) /\ spec.refreshes refresh n s1 = Some (xs, s').
Proof.
  simpl. unfold bind. destruct (refresh s) as [[x0 s1]|]; [|done].
  destruct (spec.refreshes refresh n s1) as [[xs1 s2]|] eqn:Hn; [|done].
  unfold ret. intros [= -> -> ->]. eauto.
Qed.

Lemma refreshes_cons {X : Type} (refresh : M R X) n (s s1 s' : State R) x xs :
  refresh s = Some (x, s1) ->
  spec.refreshes refresh n s1 = Some (xs, s') ->
  spec.refreshes refresh (S n) s = Some (x :: xs, s').
Proof. intros H1 H2. by rewrite (refreshes_S _ _ _ _ _ H1), H2. Qed.

Lemma waitCreated_loop conn id timeout (s : State R) :
  tfefs.waitReplicationConfigurationCreated env conn id timeout s
  = retry.refreshLoop
      (spec.createdConf (tfefs.statusReplicationConfiguration env conn id) timeout)
      20 1 (pollsWithin env timeout) 0 0 "" s.
Proof.
  unfold tfefs.waitReplicationConfigurationCreated, retry.WaitForStateContext, bind.
  simpl. fold (spec.createdConf (tfefs.statusReplicationConfiguration env conn id) timeout).
  by destruct (retry.refreshLoop _ _ _ _ _ _ _ s) as [[[[o|] err] s']|].
Qed.

(** The wait for creation always returns, after at most [polls] refreshes;
    a nil error means the last refresh found ENABLED, after refreshes that
    found ENABLING or nothing. *)
Lemma created_sound conn id timeout polls tick last (s : State R) :
  let status := tfefs.statusReplicationConfiguration env conn id in
  exists n obs s' out err,
    n <= polls
    /\ spec.refreshes status n s = Some (obs, s')
    /\ retry.refreshLoop (spec.createdConf status timeout) 20 1 polls tick 0 last s
       = Some ((out, err), s')
    /\ (err = None ->
        exists pre output,
          obs = pre ++ [spec.found output awstypes.ReplicationStatusEnabled]
          /\ out = Some output
          /\ Forall (fun x => spec.tolerated x = true) pre).
Proof.
  intros status. revert tick last s.
  induction polls as [|polls IH]; intros tick last s.
  { exists 0, [], s. eexists _, _. repeat split; [lia|discriminate]. }
  destruct (statusReplicationConfiguration_run env conn id s) as (x & r & Hs & Hx).
  rewrite (created_step _ _ _ _ _ _ _ _ _ Hs).
  pose proof (refreshes_cons status 0 _ _ _ x [] Hs eq_refl) as Hone.
  assert (forall tick' last',
    exists n obs s' out err,
      n <= S polls
      /\ spec.refreshes status n s = Some (obs, s')
      /\ retry.refreshLoop (spec.createdConf status timeout) 20 1 polls tick' 0 last'
           (called s (CallDescribe conn (spec.byID id)) r) = Some ((out, err), s')
      /\ (spec.tolerated x = true -> err = None ->
          exists pre output,
            obs = pre ++ [spec.found output awstypes.ReplicationStatusEnabled]
            /\ out = Some output
            /\ Forall (fun x => spec.tolerated x = true) pre)) as Hnext.
  { intros tick' last'.
    destruct (IH tick' last' (called s (CallDescribe conn (spec.byID id)) r))
      as (n & obs & s' & out & err & Hn & Hobs & Hloop & Hok).
    exists (S n), (x :: obs), s', out, err.
    split; [lia|]. split; [by apply (refreshes_cons status n _ _ _ x obs Hs)|].
    split; [done|]. intros Htol Herr.
    destruct (Hok Herr) as (pre & output & -> & -> & Hpre).
    exists (x :: pre), output. split; [done|]. split; [done|]. by constructor. }
  destruct Hx as [->|[[e ->]|(output & d0 & rest & -> & Hdest)]]; simpl.
  - destruct (decide (20 < S tick)) as [Hlt|Hge].
    + exists 1, [spec.absent]. eexists _, _, _.
      split; [lia|]. split; [exact Hone|]. split; [done|]. discriminate.
    + destruct (Hnext (S tick) "") as (n & obs & s' & out & err & Hn & Hobs & Hloop & Hok).
      exists n, obs, s', out, err. repeat split; try done. intros Herr. by apply Hok.
  - exists 1. eexists _, _, _, _.
    split; [lia|]. split; [exact Hone|]. split; [done|]. discriminate.
  - unfold spec.found in *.
    destruct (decide (_ = awstypes.ReplicationStatusEnabled)) as [He|Hne].
    + exists 1. eexists _, _, _, _.
      split; [lia|]. split; [exact Hone|]. split; [done|]. intros _.
      exists [], output. rewrite He. by repeat split.
    + destruct (decide (_ = awstypes.ReplicationStatusEnabling)) as [He|Hne'].
      * destruct (Hnext 0 (aws.ToString (awstypes.Destination.Status d0)))
          as (n & obs & s' & out & err & Hn & Hobs & Hloop & Hok).
        exists n, obs, s', out, err. repeat split; try done. intros Herr.
        apply Hok; [|done]. simpl. by apply bool_decide_eq_true.
      * exists 1. eexists _, _, _, _.
        split; [lia|]. split; [exact Hone|]. split; [done|]. discriminate.
Qed.

Lemma statusIs_inv {T : Type} status (x : option T * string * option error) :
  spec.statusIs status x = true -> exists output, x = (Some output, status, None).
Proof.
  destruct x as [[[output|] st] [e|]]; simpl; try discriminate.
  intros ->%bool_decide_eq_true. eauto.
Qed.

(** The wait for creation always returns, after at most [polls] refreshes.
    A nil error means the last refresh found ENABLED, after refreshes that
    found ENABLING or nothing, never more than 20 times nothing in a row; an
    error means no refresh found ENABLED. *)
Lemma created_exact conn id timeout polls tick last (s : State R) :
  let status := tfefs.statusReplicationConfiguration env conn id in
  exists n obs s' out err,
    n <= polls
    /\ spec.refreshes status n s = Some (obs, s')
    /\ retry.refreshLoop (spec.createdConf status timeout) 20 1 polls tick 0 last s
       = Some ((out, err), s')
    /\ (err = None ->
        exists pre output,
          obs = pre ++ [spec.found output awstypes.ReplicationStatusEnabled]
          /\ out = Some output
          /\ Forall (fun x => spec.tolerated x = true) pre
          /\ cover.notFoundWithin 20 tick pre = true)
    /\ (is_Some err ->
        Forall (fun x => spec.statusIs awstypes.ReplicationStatusEnabled x = false) obs).
Proof.
  intros status. revert tick last s.
  induction polls as [|polls IH]; intros tick last s.
  { exists 0, [], s. eexists _, _. split; [lia|]. split; [done|]. split; [done|].
    split; [discriminate|]. intros _. constructor. }
  destruct (statusReplicationConfiguration_run env conn id s) as (x & r & Hs & Hx).
  rewrite (created_step _ _ _ _ _ _ _ _ _ Hs).
  pose proof (refreshes_cons status 0 _ _ _ x [] Hs eq_refl) as Hone.
  destruct Hx as [->|[[e ->]|(output & d0 & rest & -> & Hdest)]]; simpl.
  - destruct (decide (20 < S tick)) as [Hlt|Hge].
    + exists 1, [spec.absent]. eexists _, _, _.
      split; [lia|]. split; [exact Hone|]. split; [done|]. split; [discriminate|].
      intros _. by repeat constructor.
    + destruct (IH (S tick) "" (called s (CallDescribe conn (spec.byID id)) r))
        as (n & obs & s' & out & err & Hn & Hobs & Hloop & Hok & Herr).
      exists (S n), (spec.absent :: obs), s', out, err.
      split; [lia|]. split; [by apply (refreshes_cons status n _ _ _ _ obs Hs)|].
      split; [done|]. split.
      * intros Hnone. destruct (Hok Hnone) as (pre & output & -> & -> & Hpre & Hruns).
        exists (spec.absent :: pre), output. split; [done|]. split; [done|].
        split; [by constructor|]. simpl. rewrite Hruns.
        rewrite bool_decide_eq_true_2 by lia. done.
      * intros Hsome. constructor; [done|]. by apply Herr.
  - exists 1. eexists _, _, _, _.
    split; [lia|]. split; [exact Hone|]. split; [done|]. split; [discriminate|].
    intros _. by repeat constructor.
  - unfold spec.found in *.
    destruct (decide (_ = awstypes.ReplicationStatusEnabled)) as [He|Hne].
    + exists 1. eexists _, _, _, _.
      split; [lia|]. split; [exact Hone|]. split; [done|]. split.
      * intros _. exists [], output. rewrite He. by repeat split.
      * by intros [? ?].
    + destruct (decide (_ = awstypes.ReplicationStatusEnabling)) as [He|Hne'].
      * destruct (IH 0 (aws.ToString (awstypes.Destination.Status d0))
                    (called s (CallDescribe conn (spec.byID id)) r))
          as (n & obs & s' & out & err & Hn & Hobs & Hloop & Hok & Herr).
        eexists (S n), (_ :: obs), s', out, err.
        split; [lia|]. split; [by apply (refreshes_cons status n _ _ _ _ obs Hs)|].
        split; [done|]. split.
        -- intros Hnone. destruct (Hok Hnone) as (pre & output' & -> & -> & Hpre & Hruns).
           eexists (_ :: pre), output'. split; [done|]. split; [done|]. split.
           ++ constructor; [|done]. simpl. by apply bool_decide_eq_true.
           ++ exact Hruns.
        -- intros Hsome. constructor; [|by apply Herr]. simpl.
           by apply bool_decide_eq_false.
      * exists 1. eexists _, _, _, _.
        split; [lia|]. split; [exact Hone|]. split; [done|]. split; [discriminate|].
        intros _. constructor; [|constructor]. simpl. by apply bool_decide_eq_false.
Qed.

Lemma tolerated_inv {T : Type} (x : option T * string * option error) :
  spec.tolerated x = true ->
  (exists output, x = (Some output, awstypes.ReplicationStatusEnabling, None))
  \/ (exists st, x = (None, st, None)).
Proof.
  destruct x as [[[output|] st] [e|]]; simpl; try discriminate.
  - intros ->%bool_decide_eq_true. eauto.
  - eauto.
Qed.

(** When the refreshes find ENABLING or nothing, never more than 20 times
    nothing in a row, until one finds ENABLED within the deadline, the wait
    returns what that one found. *)
Lemma created_complete_tolerated conn id timeout pre :
  let status := tfefs.statusReplicationConfiguration env conn id in
  forall polls tick last (s s' : State R) output,
    spec.refreshes status (S (length pre)) s
    = Some (pre ++ [spec.found output awstypes.ReplicationStatusEnabled], s') ->
    length pre < polls ->
    Forall (fun x => spec.tolerated x = true) pre ->
    cover.notFoundWithin 20 tick pre = true ->
    retry.refreshLoop (spec.createdConf status timeout) 20 1 polls tick 0 last s
    = Some ((Some output, None), s').
Proof.
  intros status.
  induction pre as [|x pre IH]; intros polls tick last s s' output Hobs Hlt Hpre Hruns;
    (destruct polls as [|polls]; [simpl in Hlt; lia|]).
  - apply refreshes_S_inv in Hobs as (s1 & Hs & Hrest).
    simpl in Hrest. injection Hrest as <-.
    rewrite (created_step _ _ _ _ _ _ _ _ _ Hs). reflexivity.
  - change (spec.refreshes status (S (S (length pre))) s
      = Some (x :: (pre ++ [spec.found output awstypes.ReplicationStatusEnabled]), s')) in Hobs.
    apply refreshes_S_inv in Hobs as (s1 & Hs & Hrest).
    rewrite (created_step _ _ _ _ _ _ _ _ _ Hs).
    inversion Hpre as [|? ? Hx Hpre']; subst.
    apply tolerated_inv in Hx as [[o ->]|[st ->]].
    + change (retry.refreshLoop (spec.createdConf status timeout) 20 1 polls 0 0
                awstypes.ReplicationStatusEnabling s1 = Some (Some output, None, s')).
      apply IH; [done|simpl in Hlt; lia|done|exact Hruns].
    + simpl in Hruns. apply andb_prop in Hruns as [Htick Hruns].
      apply bool_decide_eq_true in Htick.
      cbv beta iota. rewrite decide_False by lia.
      apply IH; [done|simpl in Hlt; lia|done|exact Hruns].
Qed.



(** One round of the loop that waits for deletion. *)
Lemma deleted_step conn id timeout polls tick occ last (s s1 : State R) x :
  let status := tfefs.statusReplicationConfiguration env conn id in
  let conf := spec.deletedConf status timeout in
  status s = Some (x, s1) ->
  retry.refreshLoop conf 20 2 (S polls) tick occ last s
  = match x with
    | (res, _, Some e) => Some ((res, Some e), s1)
    | (None, st, None) =>
        if decide (2 = S occ) then Some ((None, None), s1)
        else retry.refreshLoop conf 20 2 polls tick (S occ) st s1
    | (Some output, st, None) =>
        if decide (st = awstypes.ReplicationStatusDeleting)
        then retry.refreshLoop conf 20 2 polls 0 0 st s1
        else Some ((Some output, Some (UnexpectedStateError None st [])), s1)
    end.
Proof.
  intros status conf Hs. simpl. unfold bind. rewrite Hs.
  destruct x as [[[output|] st] [e|]]; simpl; try reflexivity.
  - destruct (decide (st = awstypes.ReplicationStatusDeleting)) as [->|Hne]; reflexivity.
  - destruct (decide (2 = S occ)); reflexivity.
Qed.

Lemma waitDeleted_loop conn id timeout (s : State R) :
  tfefs.waitReplicationConfigurationDeleted env conn id timeout s
  = retry.refreshLoop
      (spec.deletedConf (tfefs.statusReplicationConfiguration env conn id) timeout)
      20 2 (pollsWithin env timeout) 0 0 "" s.
Proof.
  unfold tfefs.waitReplicationConfigurationDeleted, retry.WaitForStateContext, bind.
  simpl. fold (spec.deletedConf (tfefs.statusReplicationConfiguration env conn id) timeout).
  by destruct (retry.refreshLoop _ _ _ _ _ _ _ s) as [[[[o|] err] s']|].
Qed.

(** The wait for deletion always returns, after at most [polls] refreshes; a
    nil error means the last two refreshes found nothing (the last one, when
    the one before the loop was entered had found nothing already). *)
Lemma deleted_sound conn id timeout polls tick occ last (s : State R) :
  let status := tfefs.statusReplicationConfiguration env conn id in
  exists n obs s' out err,
    n <= polls
    /\ spec.refreshes status n s = Some (obs, s')
    /\ retry.refreshLoop (spec.deletedConf status timeout) 20 2 polls tick occ last s
       = Some ((out, err), s')
    /\ (err = None ->
        out = None
        /\ ((occ = 1 /\ obs = [spec.absent])
            \/ exists pre, obs = pre ++ [spec.absent; spec.absent])).
Proof.
  intros status. revert tick occ last s.
  induction polls as [|polls IH]; intros tick occ last s.
  { exists 0, [], s. eexists _, _. repeat split; [lia|discriminate]. }
  destruct (statusReplicationConfiguration_run env conn id s) as (x & r & Hs & Hx).
  rewrite (deleted_step _ _ _ _ _ _ _ _ _ _ Hs).
  pose proof (refreshes_cons status 0 _ _ _ x [] Hs eq_refl) as Hone.
  destruct Hx as [->|[[e ->]|(output & d0 & rest & -> & Hdest)]]; simpl.
  - destruct (decide (2 = S occ)) as [Hocc|Hocc].
    + exists 1, [spec.absent]. eexists _, _, _.
      split; [lia|]. split; [exact Hone|]. split; [done|]. intros _.
      split; [done|]. left. split; [lia|done].
    + destruct (IH tick (S occ) "" (called s (CallDescribe conn (spec.byID id)) r))
        as (n & obs & s' & out & err & Hn & Hobs & Hloop & Hok).
      exists (S n), (spec.absent :: obs), s', out, err.
      split; [lia|]. split; [by apply (refreshes_cons status n _ _ _ _ obs Hs)|].
      split; [done|]. intros Herr.
      destruct (Hok Herr) as [-> [[Hone' ->]|[pre ->]]]; (split; [done|]); right.
      * by exists [].
      * by exists (spec.absent :: pre).
  - exists 1. eexists _, _, _, _.
    split; [lia|]. split; [exact Hone|]. split; [done|]. discriminate.
  - unfold spec.found in *.
    destruct (decide (_ = awstypes.ReplicationStatusDeleting)) as [He|Hne].
    + destruct (IH 0 0 (aws.ToString (awstypes.Destination.Status d0))
                  (called s (CallDescribe conn (spec.byID id)) r))
        as (n & obs & s' & out & err & Hn & Hobs & Hloop & Hok).
      eexists (S n), (_ :: obs), s', out, err.
      split; [lia|]. split; [by apply (refreshes_cons status n _ _ _ _ obs Hs)|].
      split; [done|]. intros Herr.
      destruct (Hok Herr) as [-> [[Hone' ->]|[pre ->]]]; [done|].
      split; [done|]. right. by eexists (_ :: pre).
    + exists 1. eexists _, _, _, _.
      split; [lia|]. split; [exact Hone|]. split; [done|]. discriminate.
Qed.

(** When the refreshes find DELETING until two in a row find nothing, within
    the deadline, the wait returns with a nil error. *)
Lemma deleted_complete conn id timeout pre :
  let status := tfefs.statusReplicationConfiguration env conn id in
  forall polls tick last (s s' : State R),
    spec.refreshes status (S (S (length pre))) s
    = Some (pre ++ [spec.absent; spec.absent], s') ->
    S (length pre) < polls ->
    Forall (fun x => spec.statusIs awstypes.ReplicationStatusDeleting x = true) pre ->
    retry.refreshLoop (spec.deletedConf status timeout) 20 2 polls tick 0 last s
    = Some ((None, None), s').
Proof.
  intros status. induction pre as [|x pre IH]; intros polls tick last s s' Hobs Hlt Hpre.
  - destruct polls as [|[|polls]]; [simpl in Hlt; lia..|].
    apply refreshes_S_inv in Hobs as (s1 & Hs1 & Hobs).
    apply refreshes_S_inv in Hobs as (s2 & Hs2 & Hobs).
    simpl in Hobs. injection Hobs as <-.
    rewrite (deleted_step _ _ _ _ _ _ _ _ _ _ Hs1).
    cbv beta iota delta [spec.absent]. rewrite decide_False by lia.
    rewrite (deleted_step _ _ _ _ _ _ _ _ _ _ Hs2). reflexivity.
  - destruct polls as [|polls]; [simpl in Hlt; lia|].
    change (spec.refreshes status (S (S (S (length pre)))) s
      = Some (x :: (pre ++ [spec.absent; spec.absent]), s')) in Hobs.
    apply refreshes_S_inv in Hobs as (s1 & Hs & Hrest).
    rewrite (deleted_step _ _ _ _ _ _ _ _ _ _ Hs).
    inversion Hpre as [|? ? Hx Hpre']; subst.
    apply statusIs_inv in Hx as [o ->].
    change (retry.refreshLoop (spec.deletedConf status timeout) 20 2 polls 0 0
              awstypes.ReplicationStatusDeleting s1 = Some (None, None, s')).
    apply IH; [done|simpl in Hlt; lia|done].
Qed.

(** Both waits return, and all they do is describe through their client. *)
Lemma waitDeleted_log conn id timeout (s : State R) :
  exists out err n s',
    tfefs.waitReplicationConfigurationDeleted env conn id timeout s = Some ((out, err), s')
    /\ calls s' = calls s ++ replicate n (CallDescribe conn (spec.byID id))
    /\ data s' = data s.
Proof.
  destruct (deleted_sound conn id timeout (pollsWithin env timeout) 0 0 "" s)
    as (n & obs & s' & out & err & _ & Hobs & Hloop & _).
  exists out, err, n, s'. rewrite waitDeleted_loop. split; [done|].
  by apply refreshes_status_log in Hobs.
Qed.

Lemma waitCreated_log conn id timeout (s : State R) :
  exists out err n s',
    tfefs.waitReplicationConfigurationCreated env conn id timeout s = Some ((out, err), s')
    /\ calls s' = calls s ++ replicate n (CallDescribe conn (spec.byID id))
    /\ data s' = data s.
Proof.
  destruct (created_sound conn id timeout (pollsWithin env timeout) 0 "" s)
    as (n & obs & s' & out & err & _ & Hobs & Hloop & _).
  exists out, err, n, s'. rewrite waitCreated_loop. split; [done|].
  by apply refreshes_status_log in Hobs.
Qed.

(** C10: waitReplicationConfigurationDeleted always returns, after no more
    refreshes than fit before the timeout, and returns a nil error only when
    its last two refreshes, one after the other, both found the
    configuration absent; it does so when the refreshes find DELETING until
    two in a row find nothing. One absent observation is not enough: with
    time for a single refresh, or when the next refresh finds DELETING again
    and the time is up, the wait ends in a timeout error. *)
Theorem waitReplicationConfigurationDeleted_two_absent conn id timeout (s : State R) :
  let wait := tfefs.waitReplicationConfigurationDeleted env conn id timeout in
  let status := tfefs.statusReplicationConfiguration env conn id in
  let polls := pollsWithin env timeout in
  (exists n obs s' out err,
      n <= polls
      /\ spec.refreshes status n s = Some (obs, s')
      /\ wait s = Some ((out, err), s')
      /\ (err = None ->
          out = None /\ 2 <= n /\ exists pre, obs = pre ++ [spec.absent; spec.absent]))
  /\ (forall k pre s',
        S k < polls ->
        spec.refreshes status (S (S k)) s = Some (pre ++ [spec.absent; spec.absent], s') ->
        Forall (fun x => spec.statusIs awstypes.ReplicationStatusDeleting x = true) pre ->
        wait s = Some ((None, None), s'))
  /\ (forall s1,
        polls = 1 ->
        status s = Some (spec.absent, s1) ->
        wait s = Some ((None, Some (TimeoutError None "" timeout [])), s1))
  /\ (forall output s1 s2,
        polls = 2 ->
        status s = Some (spec.absent, s1) ->
        status s1 = Some (spec.found output awstypes.ReplicationStatusDeleting, s2) ->
        wait s = Some ((None, Some (TimeoutError None awstypes.ReplicationStatusDeleting
                                      timeout [])), s2)).
Proof.
  intros wait status polls. unfold wait. split; [|split; [|split]].
  - destruct (deleted_sound conn id timeout polls 0 0 "" s)
      as (n & obs & s' & out & err & Hn & Hobs & Hloop & Hok).
    rewrite waitDeleted_loop. exists n, obs, s', out, err.
    split; [done|]. split; [done|]. split; [done|]. intros Herr.
    destruct (Hok Herr) as [-> [[Hone _]|[pre ->]]]; [done|].
    split; [done|]. split; [|by exists pre].
    apply refreshes_length in Hobs. rewrite length_app in Hobs. simpl in Hobs. lia.
  - intros k pre s' Hk Hobs Hpre. rewrite waitDeleted_loop.
    pose proof (refreshes_length _ _ _ _ _ Hobs) as Hlen.
    rewrite length_app in Hlen. simpl in Hlen.
    assert (k = length pre) as -> by lia.
    by apply (deleted_complete conn id timeout pre).
  - intros s1 Hpolls Hs. rewrite waitDeleted_loop. fold polls. rewrite Hpolls.
    rewrite (deleted_step _ _ _ _ _ _ _ _ _ _ Hs). reflexivity.
  - intros output s1 s2 Hpolls Hs1 Hs2. rewrite waitDeleted_loop. fold polls. rewrite Hpolls.
    rewrite (deleted_step _ _ _ _ _ _ _ _ _ _ Hs1).
    cbv beta iota delta [spec.absent]. rewrite decide_False by lia.
    rewrite (deleted_step _ _ _ _ _ _ _ _ _ _ Hs2). reflexivity.
Qed.

End Waiters.

Section Resource.
Context {R : Type} (env : Env R).

Lemma deleteReplicationConfiguration_run conn fsID timeout (s : State R) :
  exists err n s',
    tfefs.deleteReplicationConfiguration env conn fsID timeout s = Some (err, s')
    /\ calls s' = calls s ++ CallDelete conn (spec.deleteByID fsID)
                             :: replicate n (CallDescribe conn (spec.byID fsID))
    /\ data s' = data s.
Proof.
  unfold tfefs.deleteReplicationConfiguration, tfefs.DeleteReplicationConfiguration, bind.
  fold (spec.deleteByID fsID).
  destruct (apiDelete env conn (spec.deleteByID fsID) (remote s)) as [reply r].
  destruct (tfawserr.ErrCodeEquals reply _).
  { by exists None, 0, (called s (CallDelete conn (spec.deleteByID fsID)) r). }
  destruct reply as [e|].
  { eexists _, 0, _. by split. }
  destruct (waitDeleted_log env conn fsID timeout (called s (CallDelete conn (spec.deleteByID fsID)) r))
    as (out & err & n & s' & Hw & Hc & Hd).
  rewrite Hw. simpl in Hc.
  destruct err as [e|]; eexists _, n, s'; (split; [reflexivity|]);
    rewrite Hc, Hd; by rewrite <- app_assoc.
Qed.

(** C4: when the DeleteReplicationConfiguration call fails with error code
    FileSystemNotFound or ReplicationNotFound, deleteReplicationConfiguration
    returns nil right after the call, without waiting; any other error of
    the call is returned wrapped, also without waiting. *)
Theorem deleteReplicationConfiguration_absent conn fsID timeout (s : State R) reply r :
  apiDelete env conn (spec.deleteByID fsID) (remote s) = (reply, r) ->
  let delete := tfefs.deleteReplicationConfiguration env conn fsID timeout in
  let s1 := called s (CallDelete conn (spec.deleteByID fsID)) r in
  (tfawserr.ErrCodeEquals reply
     [awstypes.ErrCodeFileSystemNotFound; awstypes.ErrCodeReplicationNotFound] = true ->
   delete s = Some (None, s1))
  /\ (forall code text,
        code = awstypes.ErrCodeFileSystemNotFound \/ code = awstypes.ErrCodeReplicationNotFound ->
        reply = Some (APIError code text) ->
        delete s = Some (None, s1))
  /\ (forall e,
        reply = Some e ->
        tfawserr.ErrCodeEquals reply
          [awstypes.ErrCodeFileSystemNotFound; awstypes.ErrCodeReplicationNotFound] = false ->
        delete s
        = Some (Some (Errorf (("deleting EFS Replication Configuration (" +:+ fsID +:+ "): ")
                              +:+ tfefs.Error env e) e), s1)).
Proof.
  intros Hd delete s1. unfold delete, tfefs.deleteReplicationConfiguration,
    tfefs.DeleteReplicationConfiguration, bind.
  fold (spec.deleteByID fsID). rewrite Hd.
  split; [|split].
  - by intros ->.
  - intros code text Hcode ->.
    assert (tfawserr.ErrCodeEquals (Some (APIError code text))
              [awstypes.ErrCodeFileSystemNotFound; awstypes.ErrCodeReplicationNotFound] = true)
      as ->; [|done].
    simpl. apply bool_decide_eq_true. destruct Hcode as [->| ->]; set_solver.
  - intros e -> He. rewrite He. reflexivity.
Qed.

(** C9: resourceReplicationConfigurationDelete deletes first through the
    client for the Region of the first destination and then through the
    source-Region client, each deletion followed by its own polls only;
    when the first deletion returns an error, that error is the diagnostic
    and nothing is called through the source-Region client. *)
Theorem resourceReplicationConfigurationDelete_order (s : State R) destination0 rest :
  tfefs.expandDestinationsToCreate (schema.destination (data s)) = Some destination0 :: rest ->
  let d := data s in
  let fsID := schema.Id d in
  let timeout := schema.Timeout d schema.TimeoutDelete in
  let regionConn :=
    efs.EFSConnForRegion (aws.ToString (awstypes.DestinationToCreate.Region destination0)) in
  exists err1 n1 s1,
    tfefs.deleteReplicationConfiguration env regionConn fsID timeout s = Some (err1, s1)
    /\ calls s1 = calls s ++ CallDelete regionConn (spec.deleteByID fsID)
                             :: replicate n1 (CallDescribe regionConn (spec.byID fsID))
    /\ match err1 with
       | Some e =>
           tfefs.resourceReplicationConfigurationDelete env s
           = Some (spec.errorDiag (tfefs.Error env e), s1)
       | None =>
           exists err2 n2 s2,
             tfefs.deleteReplicationConfiguration env efs.EFSClient fsID timeout s1
             = Some (err2, s2)
             /\ calls s2 = calls s1 ++ CallDelete efs.EFSClient (spec.deleteByID fsID)
                                      :: replicate n2 (CallDescribe efs.EFSClient (spec.byID fsID))
             /\ tfefs.resourceReplicationConfigurationDelete env s
                = Some (match err2 with
                        | Some e => spec.errorDiag (tfefs.Error env e)
                        | None => []
                        end, s2)
       end.
Proof.
  intros Hexp d fsID timeout regionConn.
  destruct (deleteReplicationConfiguration_run regionConn fsID timeout s)
    as (err1 & n1 & s1 & Hdel1 & Hc1 & Hd1).
  exists err1, n1, s1. split; [done|]. split; [done|].
  unfold tfefs.resourceReplicationConfigurationDelete, bind, getData.
  rewrite Hexp. simpl. fold d fsID timeout regionConn. rewrite Hdel1.
  destruct err1 as [e|]; [done|].
  destruct (deleteReplicationConfiguration_run efs.EFSClient fsID timeout s1)
    as (err2 & n2 & s2 & Hdel2 & Hc2 & Hd2).
  exists err2, n2, s2. split; [done|]. split; [done|].
  rewrite Hd1. fold d fsID timeout. rewrite Hdel2. by destruct err2.
Qed.

(** C3: in a read of a resource that is not new, a not-found answer of
    FindReplicationConfigurationByID clears the resource ID and yields no
    diagnostic; any other lookup error yields one error diagnostic and leaves
    the resource data, the ID with it, as it was. *)
Theorem resourceReplicationConfigurationRead_not_found (s : State R) o err s1 :
  schema.IsNewResource (data s) = false ->
  tfefs.FindReplicationConfigurationByID env efs.EFSClient (schema.Id (data s)) s
  = Some ((o, err), s1) ->
  let read := tfefs.resourceReplicationConfigurationRead env in
  data s1 = data s
  /\ (tfresource.NotFound err = true ->
      read s = Some ([], spec.withId s1 "")
      /\ schema.Id (data (spec.withId s1 "")) = "")
  /\ (forall e,
        err = Some e ->
        tfresource.NotFound err = false ->
        read s
        = Some (spec.errorDiag ("reading EFS Replication Configuration ("
                                +:+ schema.Id (data s) +:+ "): " +:+ tfefs.Error env e), s1)).
Proof.
  intros Hnew Hfind read.
  split; [|split].
  - destruct (FindReplicationConfigurationByID_run env efs.EFSClient (schema.Id (data s)) s)
      as (o' & err' & r & Hf & _).
    rewrite Hf in Hfind. by injection Hfind as <- <- <-.
  - intros Hnf. split; [|done].
    unfold read, tfefs.resourceReplicationConfigurationRead, bind, getData.
    rewrite Hfind, Hnew, Hnf. reflexivity.
  - intros e -> Hnf.
    unfold read, tfefs.resourceReplicationConfigurationRead, bind, getData.
    rewrite Hfind, Hnew, Hnf. reflexivity.
Qed.

Lemma expandDestinationsToCreate_GetOk (d : schema.ResourceData) :
  (let '(v, ok) := schema.GetOk_destination d in
   if ok && bool_decide (0 < length v)
   then tfefs.expandDestinationsToCreate v else [])
  = tfefs.expandDestinationsToCreate (schema.destination d).
Proof.
  unfold schema.GetOk_destination.
  destruct (schema.destination d) as [|x l]; [done|].
  rewrite bool_decide_eq_true_2 by done.
  by rewrite bool_decide_eq_true_2 by (simpl; lia).
Qed.

End Resource.

(** ** Service packages *)

(** C6: the mediaconvert service package registers exactly one SDK data
    source and exactly one SDK resource, both of type
    "aws_media_convert_queue", named "Queue" and tagged by the ARN attribute,
    and no framework data source or resource. *)
Theorem mediaconvert_registrations :
  (exists ds, mediaconvert.SDKDataSources = [ds]
     /\ types.dsTypeName ds = "aws_media_convert_queue"
     /\ types.dsName ds = "Queue"
     /\ types.dsTags ds = Some {| types.IdentifierAttribute := names.AttrARN |})
  /\ (exists res, mediaconvert.SDKResources = [res]
     /\ types.resTypeName res = "aws_media_convert_queue"
     /\ types.resName res = "Queue"
     /\ types.resTags res = Some {| types.IdentifierAttribute := names.AttrARN |})
  /\ mediaconvert.FrameworkDataSources = []
  /\ mediaconvert.FrameworkResources = [].
Proof.
  split; [|split; [|split; reflexivity]].
  - eexists; repeat split; reflexivity.
  - eexists; repeat split; reflexivity.
Qed.

(** C7: a client built by mediaconvert NewClient or by sfn NewConn has its
    endpoint overridden by a non-empty configured endpoint, and then an
    enabled UseFIPSEndpoint setting is disabled; with an empty endpoint both
    the endpoint and the FIPS setting are those of the underlying
    configuration. *)
Theorem endpoint_override :
  (forall (Config Session : Type) (optionsFromConfig : Config -> mediaconvert.Options)
          (config : gmap string (any Config Session)) (client : mediaconvert.Client),
      mediaconvert.NewClient optionsFromConfig config = Some client ->
      exists cfg endpoint,
        config !! "aws_sdkv2_config" = Some (AnyConfig cfg)
        /\ config !! names.AttrEndpoint = Some (AnyString endpoint)
        /\ (endpoint <> "" ->
            mediaconvert.BaseEndpoint (mediaconvert.options client) = Some endpoint
            /\ (mediaconvert.UseFIPSEndpoint (optionsFromConfig cfg) = aws.FIPSEndpointStateEnabled ->
                mediaconvert.UseFIPSEndpoint (mediaconvert.options client)
                = aws.FIPSEndpointStateDisabled))
        /\ (endpoint = "" -> mediaconvert.options client = optionsFromConfig cfg))
  /\ (forall (ConfigV2 : Type) (config : gmap string (any ConfigV2 sfn.Session)) (conn : sfn.SFN),
      sfn.NewConn config = Some conn ->
      exists sess endpoint,
        config !! names.AttrSession = Some (AnySession sess)
        /\ config !! names.AttrEndpoint = Some (AnyString endpoint)
        /\ (endpoint <> "" ->
            sfn.Endpoint (sfn.clientConfig conn) = Some endpoint
            /\ (sfn.UseFIPSEndpoint (sfn.sessConfig sess) = aws.FIPSEndpointStateEnabled ->
                sfn.UseFIPSEndpoint (sfn.clientConfig conn) = aws.FIPSEndpointStateDisabled))
        /\ (endpoint = "" -> sfn.clientConfig conn = sfn.sessConfig sess)).
Proof.
  split.
  - intros Config Session ofc config client H.
    unfold mediaconvert.NewClient in H.
    destruct (config !! "aws_sdkv2_config") as [[s|cfg|s]|] eqn:Hc; try discriminate.
    unfold mediaconvert.NewFromConfig, mediaconvert.setEndpoint in H. simpl in H.
    destruct (config !! names.AttrEndpoint) as [[endpoint|c|s]|] eqn:He; try discriminate.
    exists cfg, endpoint. split; [reflexivity|]. split; [reflexivity|].
    destruct (decide (endpoint = "")) as [Hz|Hz].
    + simpl in H. inversion H; subst client. split; [intros Hn; contradiction|].
      intros _. reflexivity.
    + split; [|intros Hn; contradiction]. intros _.
      destruct (decide _) as [Hf|Hf]; simpl in H; inversion H; subst client; simpl.
      * split; [reflexivity|]. intros _. reflexivity.
      * split; [reflexivity|]. intros Hen. simpl in Hf. contradiction.
  - intros ConfigV2 config conn H.
    unfold sfn.NewConn in H.
    destruct (config !! names.AttrSession) as [[s|c|sess]|] eqn:Hs; try discriminate.
    destruct (config !! names.AttrEndpoint) as [[endpoint|c|s]|] eqn:He; try discriminate.
    exists sess, endpoint. split; [reflexivity|]. split; [reflexivity|].
    inversion H as [Hconn]. clear H.
    destruct (decide (endpoint = "")) as [Hz|Hz].
    + split; [intros Hn; contradiction|]. intros _.
      destruct sess as [[r e f]]. reflexivity.
    + split; [|intros Hn; contradiction]. intros _.
      destruct (decide _) as [Hf|Hf]; simpl.
      * split; [reflexivity|]. intros _. reflexivity.
      * split; [reflexivity|]. intros Hen. contradiction.
Qed.

(** * The theorems at work on the scripted service *)


Lemma waitReplicationConfigurationDeleted_two_absent_witness :
  exists s',
    tfefs.waitReplicationConfigurationDeleted example.env efs.EFSClient "fs-1" 3
      (example.state None None [example.answer "DELETING"])
    = Some ((None, None), s').
Proof.
  eexists.
  apply (proj1 (proj2 (waitReplicationConfigurationDeleted_two_absent example.env efs.EFSClient
                         "fs-1" 3 _))
           1 [spec.found (example.replication "DELETING") "DELETING"]).
  - vm_compute. lia.
  - reflexivity.
  - repeat constructor.
Defined.

Lemma FindReplicationConfigurationByID_first_destination_witness :
  is_Some (tfefs.statusReplicationConfiguration example.env efs.EFSClient "fs-1"
             (example.state None None [example.answer "ENABLED"])).
Proof.
  exact (proj1 (proj2 (proj2 (proj2 (FindReplicationConfigurationByID_first_destination
                                       example.env efs.EFSClient "fs-1" _))))).
Defined.

Lemma findReplicationConfigurations_pages_witness :
  tfefs.findReplicationConfigurations example.env efs.EFSClient (spec.byID "fs-1")
    (example.state None None [(example.threePages, None)])
  = Some (([Some (example.replication "ENABLED"); Some (example.replication "ENABLING")], None),
          called (example.state None None [(example.threePages, None)])
            (CallDescribe efs.EFSClient (spec.byID "fs-1"))
            (remote (example.state None None []))).
Proof.
  exact (proj1 (proj1 (findReplicationConfigurations_pages example.env efs.EFSClient
                         (spec.byID "fs-1")
                         (example.state None None [(example.threePages, None)])
                         example.threePages None (remote (example.state None None []))
                         eq_refl) eq_refl)).
Defined.

Lemma deleteReplicationConfiguration_absent_witness :
  tfefs.deleteReplicationConfiguration example.env efs.EFSClient "fs-1" 3
    (example.state None (Some example.gone) [])
  = Some (None, called (example.state None (Some example.gone) [])
                  (CallDelete efs.EFSClient (spec.deleteByID "fs-1"))
                  (remote (example.state None (Some example.gone) []))).
Proof.
  apply (proj1 (proj2 (deleteReplicationConfiguration_absent example.env efs.EFSClient
                         "fs-1" 3 (example.state None (Some example.gone) [])
                         (Some example.gone) _ eq_refl))
           awstypes.ErrCodeReplicationNotFound "replication not found").
  - by right.
  - reflexivity.
Defined.

Lemma resourceReplicationConfigurationDelete_order_witness :
  exists e s1,
    tfefs.resourceReplicationConfigurationDelete example.env
      (example.state None (Some example.denied) [])
    = Some (spec.errorDiag (tfefs.Error example.env e), s1)
    /\ calls s1 = [CallDelete (efs.EFSConnForRegion "eu-west-1") (spec.deleteByID "fs-1")].
Proof.
  destruct (resourceReplicationConfigurationDelete_order example.env
              (example.state None (Some example.denied) [])
              {| awstypes.DestinationToCreate.AvailabilityZoneName := None;
                 awstypes.DestinationToCreate.FileSystemId := None;
                 awstypes.DestinationToCreate.KmsKeyId := None;
                 awstypes.DestinationToCreate.Region := Some "eu-west-1" |} [])
    as (err1 & n1 & s1 & Hdel & Hcalls & Hres).
  { vm_compute. reflexivity. }
  vm_compute in Hdel. injection Hdel as <- <-.
  eexists _, _. split; [exact Hres|reflexivity].
Defined.

Lemma resourceReplicationConfigurationRead_not_found_witness :
  tfefs.resourceReplicationConfigurationRead example.env (example.state None None [])
  = Some ([], spec.withId
                (called (example.state None None [])
                   (CallDescribe efs.EFSClient (spec.byID "fs-1"))
                   (remote (example.state None None []))) "").
Proof.
  apply (resourceReplicationConfigurationRead_not_found example.env
           (example.state None None []) None
           (Some (NotFoundError (Some example.gone) (Some (spec.byID "fs-1")) "" 0))).
  - reflexivity.
  - reflexivity.
  - reflexivity.
Defined.

Lemma endpoint_override_witness :
  mediaconvert.NewClient (fun o => o) example.config = Some example.overridden
  /\ mediaconvert.BaseEndpoint (mediaconvert.options example.overridden)
     = Some "https://localhost:4566"
  /\ exists conn,
      sfn.NewConn example.config = Some conn
      /\ sfn.UseFIPSEndpoint (sfn.clientConfig conn) = aws.FIPSEndpointStateDisabled.
Proof.
  assert (mediaconvert.NewClient (fun o => o) example.config = Some example.overridden) as Hnew
    by (vm_compute; reflexivity).
  split; [exact Hnew|]. split.
  - destruct (proj1 endpoint_override _ _ _ _ _ Hnew) as (cfg & endpoint & Hc & He & Hne & _).
    vm_compute in He. injection He as <-.
    exact (proj1 (Hne ltac:(discriminate))).
  - destruct (sfn.NewConn example.config) as [conn|] eqn:Hconn; [|vm_compute in Hconn; discriminate].
    exists conn. split; [reflexivity|].
    destruct (proj2 endpoint_override _ _ _ Hconn) as (sess & endpoint & Hs & He & Hne & _).
    vm_compute in Hs, He. injection Hs as <-. injection He as <-.
    exact (proj2 (Hne ltac:(discriminate)) eq_refl).
Defined.

(** A status outside ENABLING and ENABLED ends the wait for creation at
    once: the configuration found comes back together with the error. *)
Example created_unexpected_status :
  option_map fst
    (tfefs.waitReplicationConfigurationCreated example.env efs.EFSClient "fs-1" 3
       (example.state None None [example.answer "ERROR"]))
  = Some (Some (example.replication "ERROR"),
          Some (UnexpectedStateError None "ERROR" ["ENABLED"])).
Proof. vm_compute. reflexivity. Qed.

(** Absent, DELETING, absent: the count of absent observations starts over,
    and the time is up. *)
Example deleted_absent_not_in_a_row :
  option_map fst
    (tfefs.waitReplicationConfigurationDeleted example.env efs.EFSClient "fs-1" 3
       (example.state None None [([], None); example.answer "DELETING"; ([], None)]))
  = Some (None, Some (TimeoutError None "" 3 [])).
Proof. vm_compute. reflexivity. Qed.

(** A full deletion: the destination Region first, then the source
    Region, each with its polls. *)
Example delete_both_regions :
  option_map (fun x => (fst x, calls (snd x)))
    (tfefs.resourceReplicationConfigurationDelete example.env
       (example.state None None [example.answer "DELETING"]))
  = Some ([],
          [ CallDelete (efs.EFSConnForRegion "eu-west-1") (spec.deleteByID "fs-1");
            CallDescribe (efs.EFSConnForRegion "eu-west-1") (spec.byID "fs-1");
            CallDescribe (efs.EFSConnForRegion "eu-west-1") (spec.byID "fs-1");
            CallDescribe (efs.EFSConnForRegion "eu-west-1") (spec.byID "fs-1");
            CallDelete efs.EFSClient (spec.deleteByID "fs-1");
            CallDescribe efs.EFSClient (spec.byID "fs-1");
            CallDescribe efs.EFSClient (spec.byID "fs-1") ]).
Proof. vm_compute. reflexivity. Qed.

(** A successful create: the ID is set, and the read fills in the
    attributes. *)
Example create_then_read :
  option_map (fun x => (fst x, schema.Id (data (snd x)),
                        schema.source_file_system_region (data (snd x)),
                        length (calls (snd x))))
    (tfefs.resourceReplicationConfigurationCreate example.env
       (example.state None None
          [example.answer "ENABLING"; example.answer "ENABLED"; example.answer "ENABLED"]))
  = Some ([], "fs-1", "us-east-1", 4).
Proof. vm_compute. reflexivity. Qed.

(** * The conversions between the schema and the API *)

Section Conversions.
Import schema.

Lemma nonEmptyString_Some (tfMap : gmap string attr) k v :
  tfefs.nonEmptyString tfMap k = Some v <-> tfMap !! k = Some (AString v) /\ v <> "".
Proof.
  unfold tfefs.nonEmptyString.
  destruct (tfMap !! k) as [[|w|]|]; try (split; [discriminate|intros [? ?]; discriminate]).
  destruct (decide (w = "")) as [->|Hw].
  - split; [discriminate|]. intros [[= ->] Hv]. done.
  - unfold aws.String. split.
    + intros [= ->]. done.
    + intros [[= ->] _]. done.
Qed.

(** X1: expandDestinationToCreate sets a field of the API object exactly
    when the map holds a non-empty string under the field's key, and to that
    string: an empty string, a missing key and a value that is not a string
    all leave the field nil. The nil map expands to nil. *)
Theorem expandDestinationToCreate_fields (tfMap : gmap string attr) :
  tfefs.expandDestinationToCreate None = None
  /\ exists apiObject,
      tfefs.expandDestinationToCreate (Some tfMap) = Some apiObject
      /\ (forall v, awstypes.DestinationToCreate.AvailabilityZoneName apiObject = Some v
                    <-> tfMap !! "availability_zone_name" = Some (AString v) /\ v <> "")
      /\ (forall v, awstypes.DestinationToCreate.KmsKeyId apiObject = Some v
                    <-> tfMap !! names.AttrKMSKeyID = Some (AString v) /\ v <> "")
      /\ (forall v, awstypes.DestinationToCreate.Region apiObject = Some v
                    <-> tfMap !! names.AttrRegion = Some (AString v) /\ v <> "")
      /\ (forall v, awstypes.DestinationToCreate.FileSystemId apiObject = Some v
                    <-> tfMap !! names.AttrFileSystemID = Some (AString v) /\ v <> "").
Proof.
  split; [reflexivity|]. eexists. split; [reflexivity|]. simpl.
  split; [|split; [|split]]; intros v; apply nonEmptyString_Some.
Qed.

Lemma omap_length_le {A B : Type} (f : A -> option B) (l : list A) :
  length (omap f l) <= length l.
Proof.
  induction l as [|x l IH]; [simpl; lia|].
  change (omap f (x :: l))
    with (match f x with Some y => y :: omap f l | None => omap f l end).
  destruct (f x); simpl length; lia.
Qed.

Lemma expandDestinationsLoop_spec tfList apiObjects :
  tfefs.expandDestinationsLoop tfList apiObjects
  = apiObjects ++ map (fun tfMap => tfefs.expandDestinationToCreate (Some tfMap))
                      (cover.mapsOf tfList).
Proof.
  revert apiObjects. induction tfList as [|[|[tfMap|]] rest IH]; intros apiObjects; simpl.
  - by rewrite app_nil_r.
  - apply IH.
  - rewrite IH. by rewrite <- app_assoc.
  - apply IH.
Qed.

Lemma expandDestinationsToCreate_spec tfList :
  tfefs.expandDestinationsToCreate tfList
  = map (fun tfMap => tfefs.expandDestinationToCreate (Some tfMap)) (cover.mapsOf tfList).
Proof.
  unfold tfefs.expandDestinationsToCreate.
  destruct (decide (length tfList = 0)) as [Hz|Hz].
  - by destruct tfList.
  - apply expandDestinationsLoop_spec.
Qed.

(** X2: expandDestinationsToCreate expands the non-nil maps of the list in
    their order and skips every other element; its result never holds a nil
    pointer and is never longer than the list. *)
Theorem expandDestinationsToCreate_maps (tfList : list item) :
  tfefs.expandDestinationsToCreate tfList
  = map (fun tfMap => tfefs.expandDestinationToCreate (Some tfMap)) (cover.mapsOf tfList)
  /\ Forall (fun apiObject => is_Some apiObject) (tfefs.expandDestinationsToCreate tfList)
  /\ length (tfefs.expandDestinationsToCreate tfList) <= length tfList.
Proof.
  rewrite expandDestinationsToCreate_spec. split; [done|]. split.
  - apply Forall_forall. intros x [tfMap [-> _]]%list_elem_of_fmap. simpl. eauto.
  - rewrite length_map. unfold cover.mapsOf. apply omap_length_le.
Qed.

(** The keys flattenDestination writes. *)
Lemma flattenDestination_lookup (apiObject : awstypes.Destination.t) :
  tfefs.flattenDestination None = None
  /\ exists tfMap : gmap string attr,
      tfefs.flattenDestination (Some apiObject) = Some tfMap
      /\ tfMap !! names.AttrFileSystemID
         = AString <$> awstypes.Destination.FileSystemId apiObject
      /\ tfMap !! names.AttrRegion = AString <$> awstypes.Destination.Region apiObject
      /\ tfMap !! names.AttrStatus = AString <$> awstypes.Destination.Status apiObject
      /\ (forall k,
            k <> names.AttrFileSystemID -> k <> names.AttrRegion -> k <> names.AttrStatus ->
            tfMap !! k = None).
Proof.
  split; [reflexivity|]. eexists. split; [reflexivity|].
  destruct apiObject as [[f|] [r|] [st|]]; unfold tfefs.setIfNonNil, names.AttrFileSystemID,
    names.AttrRegion, names.AttrStatus; simpl;
    (split; [|split; [|split]]); try (intros k H1 H2 H3); by simplify_map_eq.
Qed.

(** X3: flattenDestination writes the file system ID, the Region and the
    status of the API object under their keys, each only when it is not nil,
    and writes no other key; nil flattens to the nil map. *)
Theorem flattenDestination_keys (apiObject : awstypes.Destination.t) :
  tfefs.flattenDestination None = None
  /\ exists tfMap : gmap string attr,
      tfefs.flattenDestination (Some apiObject) = Some tfMap
      /\ tfMap !! names.AttrFileSystemID
         = AString <$> awstypes.Destination.FileSystemId apiObject
      /\ tfMap !! names.AttrRegion = AString <$> awstypes.Destination.Region apiObject
      /\ tfMap !! names.AttrStatus = AString <$> awstypes.Destination.Status apiObject
      /\ (forall k,
            k <> names.AttrFileSystemID -> k <> names.AttrRegion -> k <> names.AttrStatus ->
            tfMap !! k = None).
Proof.
  split; [reflexivity|]. eexists. split; [reflexivity|].
  destruct apiObject as [[f|] [r|] [st|]]; unfold tfefs.setIfNonNil, names.AttrFileSystemID,
    names.AttrRegion, names.AttrStatus; simpl;
    (split; [|split; [|split]]); try (intros k H1 H2 H3); by simplify_map_eq.
Qed.

Lemma flattenDestinationsLoop_spec apiObjects tfList :
  tfefs.flattenDestinationsLoop apiObjects tfList
  = tfList ++ map (fun apiObject => IMap (tfefs.flattenDestination (Some apiObject)))
                  (cover.nonNil apiObjects).
Proof.
  revert tfList. induction apiObjects as [|[apiObject|] rest IH]; intros tfList; simpl.
  - by rewrite app_nil_r.
  - rewrite IH. by rewrite <- app_assoc.
  - apply IH.
Qed.

Lemma flattenDestinations_spec apiObjects :
  tfefs.flattenDestinations apiObjects
  = map (fun apiObject => IMap (tfefs.flattenDestination (Some apiObject)))
        (cover.nonNil apiObjects).
Proof.
  unfold tfefs.flattenDestinations.
  destruct (decide (length apiObjects = 0)) as [Hz|Hz].
  - by destruct apiObjects.
  - apply flattenDestinationsLoop_spec.
Qed.

(** X4: flattenDestinations flattens the non-nil destinations in their
    order and skips the nil ones, so every element of its result is a
    non-nil map. *)
Theorem flattenDestinations_maps (apiObjects : list (option awstypes.Destination.t)) :
  tfefs.flattenDestinations apiObjects
  = map (fun apiObject => IMap (tfefs.flattenDestination (Some apiObject)))
        (cover.nonNil apiObjects)
  /\ Forall (fun raw => exists tfMap, raw = IMap (Some tfMap))
       (tfefs.flattenDestinations apiObjects)
  /\ length (tfefs.flattenDestinations apiObjects) <= length apiObjects.
Proof.
  rewrite flattenDestinations_spec. split; [done|]. split.
  - apply Forall_forall. intros x [apiObject [-> _]]%list_elem_of_fmap. simpl. eauto.
  - rewrite length_map. apply omap_length_le.
Qed.

(** X5: expanding what flattenDestination wrote gives back the Region and the
    file system ID of the API object, unless they are empty, and neither
    an availability zone nor a key: the status is lost, and the two
    attributes the API does not return stay unset. *)
Theorem expand_flattenDestination (apiObject : awstypes.Destination.t) :
  tfefs.expandDestinationToCreate (tfefs.flattenDestination (Some apiObject))
  = Some {| awstypes.DestinationToCreate.AvailabilityZoneName := None;
            awstypes.DestinationToCreate.FileSystemId :=
              cover.nonEmpty (awstypes.Destination.FileSystemId apiObject);
            awstypes.DestinationToCreate.KmsKeyId := None;
            awstypes.DestinationToCreate.Region :=
              cover.nonEmpty (awstypes.Destination.Region apiObject) |}.
Proof.
  destruct (flattenDestination_lookup apiObject) as (_ & tfMap & -> & Hf & Hr & Hs & Hother).
  unfold tfefs.expandDestinationToCreate, tfefs.nonEmptyString.
  rewrite Hf, Hr. rewrite !Hother by done.
  by destruct apiObject as [[f|] [r|] st].
Qed.

End Conversions.

(** * The finders and the resource functions, beyond the claims *)

Section Coverage.
Context {R : Type} (env : Env R).
Import schema.

Lemma nonNilReplications_non_nil pages :
  Forall (fun v => is_Some v) (spec.nonNilReplications pages).
Proof.
  unfold spec.nonNilReplications. apply Forall_concat, Forall_forall.
  intros l [[page lastPage] [-> _]]%list_elem_of_fmap. simpl.
  destruct page as [page|]; [|constructor].
  apply Forall_forall. by intros v [Hv _]%list_elem_of_filter.
Qed.

(** X6: findReplicationConfigurations makes exactly one describe call and
    leaves the resource data alone; the slice it returns never holds a nil
    pointer, and is nil whenever it returns an error. *)
Theorem findReplicationConfigurations_non_nil conn input (s : State R) :
  exists output err r,
    tfefs.findReplicationConfigurations env conn input s
    = Some ((output, err), called s (CallDescribe conn input) r)
    /\ Forall (fun v => is_Some v) output
    /\ (is_Some err -> output = []).
Proof.
  destruct (apiDescribe env conn input (remote s)) as [[pages err] r] eqn:Hd.
  rewrite (findReplicationConfigurations_run env _ _ _ _ _ _ Hd).
  destruct (tfawserr.ErrCodeEquals err _).
  { eexists _, _, _. split; [reflexivity|]. by split. }
  destruct err as [e|].
  { eexists _, _, _. split; [reflexivity|]. by split. }
  eexists _, _, _. split; [reflexivity|]. split.
  - apply nonNilReplications_non_nil.
  - by intros [? ?].
Qed.

(** X7: a refresh of the status makes exactly one describe call, for the
    given ID and through the given client, and leaves the resource data
    alone. It reports the configuration absent, or an error that is not a
    not-found error, or the configuration with the status of its first
    destination, whatever the other destinations say. *)
Theorem statusReplicationConfiguration_refresh conn id (s : State R) :
  exists x r,
    tfefs.statusReplicationConfiguration env conn id s
    = Some (x, called s (CallDescribe conn (spec.byID id)) r)
    /\ (x = spec.absent
        \/ (exists e, x = (None, "", Some e) /\ tfresource.NotFound (Some e) = false)
        \/ (exists output d0 rest,
              x = spec.found output (aws.ToString (awstypes.Destination.Status d0))
              /\ awstypes.ReplicationConfigurationDescription.Destinations output
                 = Some d0 :: rest)).
Proof.
  destruct (FindReplicationConfigurationByID_run env conn id s) as (o & err & r & Hf & Hres).
  unfold tfefs.statusReplicationConfiguration, bind. rewrite Hf.
  destruct (tfresource.NotFound err) eqn:Hnf.
  { eexists _, _. split; [reflexivity|]. by left. }
  destruct err as [e|].
  { eexists _, _. split; [reflexivity|]. right; left. eauto. }
  destruct Hres as (output & d0 & rest & -> & Hdest).
  rewrite Hdest. simpl.
  eexists _, _. split; [reflexivity|]. right; right. eauto.
Qed.

Lemma FindReplicationConfigurationByID_data conn id (s : State R) o err s1 :
  tfefs.FindReplicationConfigurationByID env conn id s = Some ((o, err), s1) ->
  data s1 = data s
  /\ calls s1 = calls s ++ [CallDescribe conn (spec.byID id)]
  /\ (err = None -> exists output d0 rest,
        o = Some output
        /\ awstypes.ReplicationConfigurationDescription.Destinations output = Some d0 :: rest).
Proof.
  intros H.
  destruct (FindReplicationConfigurationByID_run env conn id s) as (o' & err' & r & Hf & Hres).
  rewrite Hf in H. injection H as <- <- <-. split; [done|]. split; [done|].
  by intros ->.
Qed.

(** The read after a successful lookup, when the destination list of the
    configuration is empty or starts with a map. *)
Lemma read_success (s : State R) replication s1 :
  tfefs.FindReplicationConfigurationByID env efs.EFSClient (Id (data s)) s
  = Some ((Some replication, None), s1) ->
  cover.headIsMap (destination (data s)) = true ->
  exists d0 m0 tail destinations,
    awstypes.ReplicationConfigurationDescription.Destinations replication !! 0 = Some (Some d0)
    /\ tfefs.flattenDestination (Some d0) = Some m0
    /\ destinations
       = IMap (Some match destination (data s) with
                    | IMap src :: _ =>
                        <[names.AttrKMSKeyID := cover.index src names.AttrKMSKeyID]>
                          (<["availability_zone_name" :=
                               cover.index src "availability_zone_name"]> m0)
                    | _ => m0
                    end) :: tail
    /\ tfefs.resourceReplicationConfigurationRead env s
       = match checkDestination env destinations with
         | Some e =>
             Some (spec.errorDiag ("setting destination: " +:+ tfefs.Error env e),
                   cover.withData s1
                     (Set_creation_time
                        (timeText env
                           (awstypes.ReplicationConfigurationDescription.CreationTime
                              replication)) (data s)))
         | None =>
             Some ([], cover.withData s1 (cover.readInto env replication destinations (data s)))
         end.
Proof.
  intros Hfind Hhead.
  destruct (FindReplicationConfigurationByID_data _ _ _ _ _ _ Hfind)
    as (Hdata & _ & Hok).
  destruct (Hok eq_refl) as (output & d0 & rest & [= <-] & Hdest).
  destruct (flattenDestination_lookup d0) as (_ & m0 & Hm0 & _).
  assert (tfefs.flattenDestinations
            (awstypes.ReplicationConfigurationDescription.Destinations replication)
          = IMap (Some m0)
            :: map (fun apiObject => IMap (tfefs.flattenDestination (Some apiObject)))
                 (cover.nonNil rest)) as Hflat.
  { rewrite flattenDestinations_spec, Hdest.
    change (cover.nonNil (Some d0 :: rest)) with (d0 :: cover.nonNil rest).
    rewrite <- Hm0. reflexivity. }
  exists d0, m0,
    (map (fun apiObject => IMap (tfefs.flattenDestination (Some apiObject))) (cover.nonNil rest)).
  eexists. split; [by rewrite Hdest|]. split; [done|]. split; [reflexivity|].
  unfold tfefs.resourceReplicationConfigurationRead, bind, getData.
  rewrite Hfind. simpl tfresource.NotFound. rewrite andb_false_r.
  unfold tfefs.lift at 1. unfold ret at 1.
  rewrite Hflat. unfold GetOk_destination.
  destruct (destination (data s)) as [|[|src] v'] eqn:Hv; [|done|].
  - simpl. unfold modifyData, ret. simpl. rewrite Hdata.
    destruct (checkDestination env _); reflexivity.
  - simpl. unfold modifyData, ret. simpl. rewrite Hdata.
    destruct (checkDestination env _); reflexivity.
Qed.

Lemma read_panics (s : State R) replication s1 rest :
  tfefs.FindReplicationConfigurationByID env efs.EFSClient (Id (data s)) s
  = Some ((Some replication, None), s1) ->
  destination (data s) = INotMap :: rest ->
  tfefs.resourceReplicationConfigurationRead env s = None.
Proof.
  intros Hfind Hv.
  destruct (FindReplicationConfigurationByID_data _ _ _ _ _ _ Hfind) as (_ & _ & Hok).
  destruct (Hok eq_refl) as (output & d0 & rest' & [= <-] & Hdest).
  unfold tfefs.resourceReplicationConfigurationRead, bind, getData.
  rewrite Hfind. simpl tfresource.NotFound. rewrite andb_false_r.
  unfold tfefs.lift at 1. unfold ret at 1.
  rewrite flattenDestinations_spec, Hdest. unfold GetOk_destination. rewrite Hv.
  reflexivity.
Qed.

(** X8: after a successful lookup, with a configuration whose destination
    list is empty or starts with a map and a destination list the schema
    accepts, the read returns no diagnostic, has made the one describe call
    of the lookup, keeps the ID and sets the creation time, the two ARNs, the
    source file system ID and the source Region from the description, nil
    pointers as empty strings. *)
Theorem resourceReplicationConfigurationRead_attributes (s : State R) replication s1 :
  tfefs.FindReplicationConfigurationByID env efs.EFSClient (Id (data s)) s
  = Some ((Some replication, None), s1) ->
  cover.headIsMap (destination (data s)) = true ->
  (forall l, checkDestination env l = None) ->
  exists s',
    tfefs.resourceReplicationConfigurationRead env s = Some ([], s')
    /\ remote s' = remote s1
    /\ calls s' = calls s ++ [CallDescribe efs.EFSClient (spec.byID (Id (data s)))]
    /\ Id (data s') = Id (data s)
    /\ IsNewResource (data s') = IsNewResource (data s)
    /\ creation_time (data s')
       = timeText env (awstypes.ReplicationConfigurationDescription.CreationTime replication)
    /\ original_source_file_system_arn (data s')
       = aws.ToString
           (awstypes.ReplicationConfigurationDescription.OriginalSourceFileSystemArn replication)
    /\ source_file_system_arn (data s')
       = aws.ToString
           (awstypes.ReplicationConfigurationDescription.SourceFileSystemArn replication)
    /\ source_file_system_id (data s')
       = aws.ToString
           (awstypes.ReplicationConfigurationDescription.SourceFileSystemId replication)
    /\ source_file_system_region (data s')
       = aws.ToString
           (awstypes.ReplicationConfigurationDescription.SourceFileSystemRegion replication).
Proof.
  intros Hfind Hhead Hcheck.
  destruct (read_success s replication s1 Hfind Hhead)
    as (d0 & m0 & tail & destinations & _ & _ & _ & Hread).
  rewrite Hcheck in Hread.
  destruct (FindReplicationConfigurationByID_data _ _ _ _ _ _ Hfind) as (_ & Hcalls & _).
  eexists. split; [exact Hread|]. by repeat split.
Qed.

Lemma readBack_lookup (tfMap : gmap string attr) :
  readBack tfMap !! "availability_zone_name"
  = Some (AString (stringOf (tfMap !! "availability_zone_name")))
  /\ readBack tfMap !! names.AttrFileSystemID
     = Some (AString (stringOf (tfMap !! names.AttrFileSystemID)))
  /\ readBack tfMap !! names.AttrKMSKeyID
     = Some (AString (stringOf (tfMap !! names.AttrKMSKeyID)))
  /\ readBack tfMap !! names.AttrRegion = Some (AString (stringOf (tfMap !! names.AttrRegion)))
  /\ readBack tfMap !! names.AttrStatus = Some (AString (stringOf (tfMap !! names.AttrStatus))).
Proof.
  unfold readBack, names.AttrFileSystemID, names.AttrKMSKeyID, names.AttrRegion,
    names.AttrStatus.
  repeat split; by simplify_map_eq.
Qed.

Lemma stringOf_fmap (p : option string) : stringOf (AString <$> p) = aws.ToString p.
Proof. by destruct p. Qed.

(** The destination attribute after a successful read. *)
Lemma read_destination (s : State R) replication s1 :
  tfefs.FindReplicationConfigurationByID env efs.EFSClient (Id (data s)) s
  = Some ((Some replication, None), s1) ->
  cover.headIsMap (destination (data s)) = true ->
  (forall l, checkDestination env l = None) ->
  exists s' d0 (tfMap : gmap string attr) tail,
    tfefs.resourceReplicationConfigurationRead env s = Some ([], s')
    /\ awstypes.ReplicationConfigurationDescription.Destinations replication !! 0
       = Some (Some d0)
    /\ destination (data s') = IMap (Some tfMap) :: tail
    /\ tfMap !! names.AttrFileSystemID
       = Some (AString (aws.ToString (awstypes.Destination.FileSystemId d0)))
    /\ tfMap !! names.AttrRegion
       = Some (AString (aws.ToString (awstypes.Destination.Region d0)))
    /\ tfMap !! names.AttrStatus
       = Some (AString (aws.ToString (awstypes.Destination.Status d0)))
    /\ (forall src rest,
          destination (data s) = IMap src :: rest ->
          tfMap !! "availability_zone_name"
          = Some (AString (stringOf (Some (cover.index src "availability_zone_name"))))
          /\ tfMap !! names.AttrKMSKeyID
             = Some (AString (stringOf (Some (cover.index src names.AttrKMSKeyID)))))
    /\ (destination (data s) = [] ->
        tfMap !! "availability_zone_name" = Some (AString "")
        /\ tfMap !! names.AttrKMSKeyID = Some (AString "")).
Proof.
  intros Hfind Hhead Hcheck.
  destruct (read_success s replication s1 Hfind Hhead)
    as (d0 & m0 & tail & destinations & Hd0 & Hm0 & -> & Hread).
  rewrite Hcheck in Hread.
  destruct (flattenDestination_lookup d0) as (_ & m0' & Hm0' & Hf & Hr & Hs & Hother).
  rewrite Hm0 in Hm0'. injection Hm0' as <-.
  eexists _, d0, _, (map readBackItem tail).
  split; [exact Hread|]. split; [done|]. split; [reflexivity|].
  match goal with
  | |- context [readBack ?m] => destruct (readBack_lookup m) as (Ha & Hb & Hc & Hd & He)
  end.
  rewrite Ha, Hb, Hc, Hd, He. clear Ha Hb Hc Hd He.
  unfold names.AttrFileSystemID, names.AttrRegion, names.AttrStatus, names.AttrKMSKeyID in *.
  destruct (destination (data s)) as [|[|src] rest]; [|done|].
  - rewrite Hf, Hr, Hs, !stringOf_fmap.
    split; [done|]. split; [done|]. split; [done|]. split.
    + intros src rest [=].
    + intros _. by rewrite !Hother.
  - rewrite !lookup_insert_ne by done. rewrite Hf, Hr, Hs, !stringOf_fmap.
    split; [done|]. split; [done|]. split; [done|]. split.
    + intros src' rest' [= <- <-]. by rewrite !lookup_insert_eq.
    + intros [=].
Qed.

(** X9: in that read, the first element of the destination attribute is a
    block with the file system ID, the Region and the status of the first
    destination the API returned, nil as the empty string. Its availability
    zone name and key ID, which the API does not return, are the strings of
    the configured destination block when there is one, and empty strings
    when the configured list is empty (an import). *)
Theorem resourceReplicationConfigurationRead_destination (s : State R) replication s1 :
  tfefs.FindReplicationConfigurationByID env efs.EFSClient (Id (data s)) s
  = Some ((Some replication, None), s1) ->
  cover.headIsMap (destination (data s)) = true ->
  (forall l, checkDestination env l = None) ->
  exists s' d0 (tfMap : gmap string attr) tail,
    tfefs.resourceReplicationConfigurationRead env s = Some ([], s')
    /\ awstypes.ReplicationConfigurationDescription.Destinations replication !! 0
       = Some (Some d0)
    /\ destination (data s') = IMap (Some tfMap) :: tail
    /\ tfMap !! names.AttrFileSystemID
       = Some (AString (aws.ToString (awstypes.Destination.FileSystemId d0)))
    /\ tfMap !! names.AttrRegion
       = Some (AString (aws.ToString (awstypes.Destination.Region d0)))
    /\ tfMap !! names.AttrStatus
       = Some (AString (aws.ToString (awstypes.Destination.Status d0)))
    /\ (forall src rest,
          destination (data s) = IMap src :: rest ->
          tfMap !! "availability_zone_name"
          = Some (AString (stringOf (Some (cover.index src "availability_zone_name"))))
          /\ tfMap !! names.AttrKMSKeyID
             = Some (AString (stringOf (Some (cover.index src names.AttrKMSKeyID)))))
    /\ (destination (data s) = [] ->
        tfMap !! "availability_zone_name" = Some (AString "")
        /\ tfMap !! names.AttrKMSKeyID = Some (AString "")).
Proof.
  intros Hfind Hhead Hcheck.
  destruct (read_destination s replication s1 Hfind Hhead Hcheck)
    as (s' & d0 & tfMap & tail & Hread & Hd0 & Hdest & Hrest).
  exists s', d0, tfMap, tail. split; [exact Hread|]. split; [exact Hd0|].
  split; [exact Hdest|exact Hrest].
Qed.

(** X10: the destination list that read leaves in the resource data
    expands to a list whose first element carries the Region and the file
    system ID the API returned, when they are not empty: the deletion that
    reads the resource data goes to the Region the API reported. *)
Theorem resourceReplicationConfigurationRead_then_expand (s : State R) replication s1 :
  tfefs.FindReplicationConfigurationByID env efs.EFSClient (Id (data s)) s
  = Some ((Some replication, None), s1) ->
  cover.headIsMap (destination (data s)) = true ->
  (forall l, checkDestination env l = None) ->
  exists s' d0 apiObject rest,
    tfefs.resourceReplicationConfigurationRead env s = Some ([], s')
    /\ awstypes.ReplicationConfigurationDescription.Destinations replication !! 0
       = Some (Some d0)
    /\ tfefs.expandDestinationsToCreate (destination (data s')) = Some apiObject :: rest
    /\ awstypes.DestinationToCreate.Region apiObject
       = cover.nonEmpty (awstypes.Destination.Region d0)
    /\ awstypes.DestinationToCreate.FileSystemId apiObject
       = cover.nonEmpty (awstypes.Destination.FileSystemId d0).
Proof.
  intros Hfind Hhead Hcheck.
  destruct (read_destination s replication s1
              Hfind Hhead Hcheck)
    as (s' & d0 & tfMap & tail & Hread & Hd0 & Hdest & Hf & Hr & _).
  eexists s', d0, _, _. split; [exact Hread|]. split; [exact Hd0|].
  rewrite expandDestinationsToCreate_spec, Hdest.
  change (cover.mapsOf (IMap (Some tfMap) :: tail)) with (tfMap :: cover.mapsOf tail).
  split; [reflexivity|]. simpl. unfold tfefs.nonEmptyString. rewrite Hf, Hr.
  by destruct (awstypes.Destination.Region d0), (awstypes.Destination.FileSystemId d0).
Qed.

(** X11: when the schema writer rejects the destination list, the read
    returns one error diagnostic about setting the destination, and by then it
    has written the creation time and nothing else. *)
Theorem resourceReplicationConfigurationRead_set_error (s : State R) replication s1 e :
  tfefs.FindReplicationConfigurationByID env efs.EFSClient (Id (data s)) s
  = Some ((Some replication, None), s1) ->
  cover.headIsMap (destination (data s)) = true ->
  (forall l, checkDestination env l = Some e) ->
  tfefs.resourceReplicationConfigurationRead env s
  = Some (spec.errorDiag ("setting destination: " +:+ tfefs.Error env e),
          cover.withData s1
            (Set_creation_time
               (timeText env
                  (awstypes.ReplicationConfigurationDescription.CreationTime replication))
               (data s))).
Proof.
  intros Hfind Hhead Hcheck.
  destruct (read_success s replication s1 Hfind Hhead)
    as (d0 & m0 & tail & destinations & _ & _ & _ & Hread).
  by rewrite Hcheck in Hread.
Qed.

(** X12: in the read of a new resource every error of the lookup, a
    not-found error too, gives one error diagnostic, and the resource data
    keeps its ID: only a resource that is not new is dropped from the state
    when it is not found. *)
Theorem resourceReplicationConfigurationRead_new_resource (s : State R) o e s1 :
  IsNewResource (data s) = true ->
  tfefs.FindReplicationConfigurationByID env efs.EFSClient (Id (data s)) s
  = Some ((o, Some e), s1) ->
  tfefs.resourceReplicationConfigurationRead env s
  = Some (spec.errorDiag ("reading EFS Replication Configuration ("
                          +:+ Id (data s) +:+ "): " +:+ tfefs.Error env e), s1)
  /\ data s1 = data s.
Proof.
  intros Hnew Hfind.
  destruct (FindReplicationConfigurationByID_data _ _ _ _ _ _ Hfind) as (Hdata & _ & _).
  split; [|done].
  unfold tfefs.resourceReplicationConfigurationRead, bind, getData.
  by rewrite Hfind, Hnew.
Qed.

Lemma headIsMap_false v :
  cover.headIsMap v = false -> exists rest, v = INotMap :: rest.
Proof. destruct v as [|[|src] rest]; try discriminate. eauto. Qed.

(** Whatever the read returns, it has made one describe call, returns at
    most one diagnostic, and has either kept the ID or, for a resource that
    is not new, cleared it without a diagnostic. *)
Lemma read_returns (s : State R) diags s' :
  tfefs.resourceReplicationConfigurationRead env s = Some (diags, s') ->
  calls s' = calls s ++ [CallDescribe efs.EFSClient (spec.byID (Id (data s)))]
  /\ length diags <= 1
  /\ IsNewResource (data s') = IsNewResource (data s)
  /\ (Id (data s') = Id (data s)
      \/ (Id (data s') = "" /\ diags = [] /\ IsNewResource (data s) = false)).
Proof.
  intros Hread.
  destruct (FindReplicationConfigurationByID_run env efs.EFSClient (Id (data s)) s)
    as (o & err & r & Hf & Hres).
  destruct (negb (IsNewResource (data s)) && tfresource.NotFound err) eqn:Hcond.
  { unfold tfefs.resourceReplicationConfigurationRead, bind, getData in Hread.
    rewrite Hf, Hcond in Hread. injection Hread as <- <-. simpl.
    split; [done|]. split; [lia|]. split; [done|]. right.
    apply andb_prop in Hcond as [Hnew _]. apply negb_true_iff in Hnew. done. }
  destruct err as [e|].
  { unfold tfefs.resourceReplicationConfigurationRead, bind, getData in Hread.
    rewrite Hf, Hcond in Hread. injection Hread as <- <-. simpl.
    split; [done|]. split; [lia|]. split; [done|]. by left. }
  destruct Hres as (output & d0 & rest & -> & Hdest).
  destruct (cover.headIsMap (destination (data s))) eqn:Hhead.
  - destruct (read_success s output _ Hf Hhead)
      as (d0' & m0 & tail & destinations & _ & _ & _ & Hread').
    rewrite Hread' in Hread.
    destruct (checkDestination env destinations); injection Hread as <- <-; simpl;
      (split; [done|]); (split; [lia|]); (split; [done|]); by left.
  - apply headIsMap_false in Hhead as [rest' Hv].
    by rewrite (read_panics s output _ rest' Hf Hv) in Hread.
Qed.

(** X13: whatever the read returns, it has made exactly one API call, the
    describe for the resource ID, returns at most one diagnostic, and has
    kept the ID, or cleared it without a diagnostic for a resource that is
    not new. It returns whenever the destination list of the configuration
    is empty or starts with a map, and panics on the type assertion when the
    lookup succeeds and the list starts with anything else. *)
Theorem resourceReplicationConfigurationRead_returns (s : State R) :
  (forall diags s',
      tfefs.resourceReplicationConfigurationRead env s = Some (diags, s') ->
      calls s' = calls s ++ [CallDescribe efs.EFSClient (spec.byID (Id (data s)))]
      /\ length diags <= 1
      /\ IsNewResource (data s') = IsNewResource (data s)
      /\ (Id (data s') = Id (data s)
          \/ (Id (data s') = "" /\ diags = [] /\ IsNewResource (data s) = false)))
  /\ (cover.headIsMap (destination (data s)) = true ->
      is_Some (tfefs.resourceReplicationConfigurationRead env s))
  /\ (forall replication s1 rest,
        tfefs.FindReplicationConfigurationByID env efs.EFSClient (Id (data s)) s
        = Some ((Some replication, None), s1) ->
        destination (data s) = INotMap :: rest ->
        tfefs.resourceReplicationConfigurationRead env s = None).
Proof.
  split; [|split].
  - apply read_returns.
  - intros Hhead.
    destruct (FindReplicationConfigurationByID_run env efs.EFSClient (Id (data s)) s)
      as (o & err & r & Hf & Hres).
    destruct (negb (IsNewResource (data s)) && tfresource.NotFound err) eqn:Hcond.
    { unfold tfefs.resourceReplicationConfigurationRead, bind, getData.
      rewrite Hf, Hcond. eauto. }
    destruct err as [e|].
    { unfold tfefs.resourceReplicationConfigurationRead, bind, getData.
      rewrite Hf, Hcond. eauto. }
    destruct Hres as (output & d0 & rest & -> & Hdest).
    destruct (read_success s output _ Hf Hhead)
      as (d0' & m0 & tail & destinations & _ & _ & _ & ->).
    destruct (checkDestination env destinations); eauto.
  - apply read_panics.
Qed.

Lemma expandDestinationsToCreate_head tfList :
  tfefs.expandDestinationsToCreate tfList = []
  \/ exists apiObject rest, tfefs.expandDestinationsToCreate tfList = Some apiObject :: rest.
Proof.
  rewrite expandDestinationsToCreate_spec.
  destruct (cover.mapsOf tfList) as [|tfMap l]; [by left|]. right. simpl. eauto.
Qed.

(** What the deletion of the resource does once the first destination is
    known. *)
Lemma delete_unfold (s : State R) destination0 rest :
  tfefs.expandDestinationsToCreate (destination (data s)) = Some destination0 :: rest ->
  exists err1 n1 s1,
    let regionConn :=
      efs.EFSConnForRegion (aws.ToString (awstypes.DestinationToCreate.Region destination0)) in
    calls s1 = calls s ++ CallDelete regionConn (spec.deleteByID (Id (data s)))
                          :: replicate n1 (CallDescribe regionConn (spec.byID (Id (data s))))
    /\ data s1 = data s
    /\ match err1 with
       | Some e =>
           tfefs.resourceReplicationConfigurationDelete env s
           = Some (spec.errorDiag (tfefs.Error env e), s1)
       | None =>
           exists err2 n2 s2,
             calls s2 = calls s1 ++ CallDelete efs.EFSClient (spec.deleteByID (Id (data s)))
                                   :: replicate n2
                                        (CallDescribe efs.EFSClient (spec.byID (Id (data s))))
             /\ data s2 = data s
             /\ tfefs.resourceReplicationConfigurationDelete env s
                = Some (match err2 with
                        | Some e => spec.errorDiag (tfefs.Error env e)
                        | None => []
                        end, s2)
       end.
Proof.
  intros Hexp.
  destruct (deleteReplicationConfiguration_run env
              (efs.EFSConnForRegion
                 (aws.ToString (awstypes.DestinationToCreate.Region destination0)))
              (Id (data s)) (Timeout (data s) TimeoutDelete) s)
    as (err1 & n1 & s1 & Hdel1 & Hc1 & Hd1).
  exists err1, n1, s1. split; [done|]. split; [done|].
  unfold tfefs.resourceReplicationConfigurationDelete, bind, getData.
  rewrite Hexp. simpl. rewrite Hdel1.
  destruct err1 as [e|]; [done|].
  destruct (deleteReplicationConfiguration_run env efs.EFSClient (Id (data s))
              (Timeout (data s) TimeoutDelete) s1)
    as (err2 & n2 & s2 & Hdel2 & Hc2 & Hd2).
  exists err2, n2, s2. split; [done|]. split; [by rewrite Hd2|].
  rewrite Hd1, Hdel2. by destruct err2.
Qed.

(** X14: the deletion of the resource panics, on the unguarded [0], exactly
    when the destination list of the resource data expands to nothing: when
    it holds no non-nil map. Otherwise it returns. *)
Theorem resourceReplicationConfigurationDelete_panics (s : State R) :
  tfefs.resourceReplicationConfigurationDelete env s = None
  <-> cover.mapsOf (destination (data s)) = [].
Proof.
  split.
  - intros Hpanic.
    destruct (expandDestinationsToCreate_head (destination (data s)))
      as [Hnil|(apiObject & rest & Hexp)].
    + rewrite expandDestinationsToCreate_spec in Hnil.
      by destruct (cover.mapsOf (destination (data s))).
    + destruct (delete_unfold s apiObject rest Hexp) as (err1 & n1 & s1 & _ & _ & Hres).
      destruct err1 as [e|].
      * by rewrite Hres in Hpanic.
      * destruct Hres as (err2 & n2 & s2 & _ & _ & Hres). by rewrite Hres in Hpanic.
  - intros Hnil.
    unfold tfefs.resourceReplicationConfigurationDelete, bind, getData.
    by rewrite expandDestinationsToCreate_spec, Hnil.
Qed.

(** X15: whatever the deletion of the resource returns, it has left the
    resource data as it was (the ID is not cleared here), returns at most one
    diagnostic, and has made no create call. *)
Theorem resourceReplicationConfigurationDelete_data (s : State R) diags s' :
  tfefs.resourceReplicationConfigurationDelete env s = Some (diags, s') ->
  data s' = data s
  /\ length diags <= 1
  /\ exists l, calls s' = calls s ++ l /\ Forall (fun c => cover.isCreate c = false) l.
Proof.
  intros Hdel.
  destruct (expandDestinationsToCreate_head (destination (data s)))
    as [Hnil|(apiObject & rest & Hexp)].
  { unfold tfefs.resourceReplicationConfigurationDelete, bind, getData in Hdel.
    by rewrite Hnil in Hdel. }
  destruct (delete_unfold s apiObject rest Hexp) as (err1 & n1 & s1 & Hc1 & Hd1 & Hres).
  assert (forall conn n,
    Forall (fun c => cover.isCreate c = false)
      (CallDelete conn (spec.deleteByID (Id (data s)))
         :: replicate n (CallDescribe conn (spec.byID (Id (data s)))))) as Hlog.
  { intros conn n. constructor; [done|]. apply Forall_forall.
    by intros c [-> _]%elem_of_replicate. }
  destruct err1 as [e|].
  - rewrite Hres in Hdel. injection Hdel as <- <-.
    split; [done|]. split; [simpl; lia|]. eexists. split; [exact Hc1|]. apply Hlog.
  - destruct Hres as (err2 & n2 & s2 & Hc2 & Hd2 & Hres).
    rewrite Hres in Hdel. injection Hdel as <- <-.
    split; [done|]. split; [destruct err2; simpl; lia|].
    eexists. split; [by rewrite Hc2, Hc1, <- app_assoc|].
    apply Forall_app. split; apply Hlog.
Qed.

(** X16: when deleteReplicationConfiguration returns nil, either the delete
    call failed with one of the two not-found codes, or it succeeded and the
    last two polls that followed, within the timeout, both found the
    configuration absent. *)
Theorem deleteReplicationConfiguration_nil conn fsID timeout (s s' : State R) reply r :
  apiDelete env conn (spec.deleteByID fsID) (remote s) = (reply, r) ->
  tfefs.deleteReplicationConfiguration env conn fsID timeout s = Some (None, s') ->
  let s1 := called s (CallDelete conn (spec.deleteByID fsID)) r in
  (tfawserr.ErrCodeEquals reply
     [awstypes.ErrCodeFileSystemNotFound; awstypes.ErrCodeReplicationNotFound] = true
   /\ s' = s1)
  \/ (reply = None
      /\ exists n pre,
          n <= pollsWithin env timeout
          /\ spec.refreshes (tfefs.statusReplicationConfiguration env conn fsID) n s1
             = Some (pre ++ [spec.absent; spec.absent], s')).
Proof.
  intros Hd Hdel s1.
  unfold tfefs.deleteReplicationConfiguration, tfefs.DeleteReplicationConfiguration, bind in Hdel.
  fold (spec.deleteByID fsID) in Hdel. rewrite Hd in Hdel. fold s1 in Hdel.
  destruct (tfawserr.ErrCodeEquals reply _) eqn:Hcode.
  { left. split; [done|]. by injection Hdel as <-. }
  destruct reply as [e|]; [discriminate|].
  right. split; [done|].
  rewrite waitDeleted_loop in Hdel.
  destruct (deleted_sound env conn fsID timeout (pollsWithin env timeout) 0 0 "" s1)
    as (n & obs & s2 & out & err & Hn & Hobs & Hloop & Hok).
  rewrite Hloop in Hdel. destruct err as [e|]; [discriminate|].
  injection Hdel as <-.
  destruct (Hok eq_refl) as [_ [[Hone _]|[pre ->]]]; [done|].
  by exists n, pre.
Qed.

(** The phases of the create. *)
Lemma create_unfold (s : State R) reply r :
  let d := data s in
  let fsID := source_file_system_id d in
  apiCreate env efs.EFSClient (cover.createInput d) (remote s) = (reply, r) ->
  let s1 := called s (CallCreate efs.EFSClient (cover.createInput d)) r in
  tfefs.resourceReplicationConfigurationCreate env s
  = match reply with
    | Some e =>
        Some (spec.errorDiag ("creating EFS Replication Configuration (" +:+ fsID
                              +:+ "): " +:+ tfefs.Error env e), s1)
    | None =>
        match tfefs.waitReplicationConfigurationCreated env efs.EFSClient fsID
                (Timeout d TimeoutCreate) (spec.withId s1 fsID) with
        | Some ((_, Some e), s3) =>
            Some (spec.errorDiag ("waiting for EFS Replication Configuration ("
                                  +:+ Id (data s3) +:+ ") create: "
                                  +:+ tfefs.Error env e), s3)
        | Some ((_, None), s3) =>
            match tfefs.resourceReplicationConfigurationRead env s3 with
            | Some (diags', s4) => Some ([] ++ diags', s4)
            | None => None
            end
        | None => None
        end
    end.
Proof.
  intros d fsID Hcreate s1.
  unfold tfefs.resourceReplicationConfigurationCreate, bind, getData.
  fold d. fold fsID. cbv zeta.
  pose proof (expandDestinationsToCreate_GetOk d) as Hin.
  destruct (GetOk_destination d) as [v ok].
  match goal with
  | |- context [tfefs.CreateReplicationConfiguration env efs.EFSClient ?i s] =>
      replace i with (cover.createInput d)
  end.
  2:{ unfold cover.createInput. fold fsID.
      destruct (ok && bool_decide (0 < length v)); simpl; by rewrite <- Hin. }
  unfold tfefs.CreateReplicationConfiguration. rewrite Hcreate. fold s1.
  destruct reply as [e|]; [reflexivity|].
  unfold modifyData. simpl. fold (spec.withId s1 fsID).
  destruct (tfefs.waitReplicationConfigurationCreated _ _ _ _ _)
    as [[[out [e|]] s3]|]; reflexivity.
Qed.

(** X17: whatever the create returns, its first call is the one
    CreateReplicationConfiguration call, every call after it is a describe of
    the source file system through the same client, and it returns at most
    one diagnostic. It never deletes what it created, also when the wait or
    the read fails. *)
Theorem resourceReplicationConfigurationCreate_calls (s : State R) diags s' :
  tfefs.resourceReplicationConfigurationCreate env s = Some (diags, s') ->
  let d := data s in
  length diags <= 1
  /\ exists n,
      calls s' = calls s ++ CallCreate efs.EFSClient (cover.createInput d)
                           :: replicate n
                                (CallDescribe efs.EFSClient
                                   (spec.byID (source_file_system_id d))).
Proof.
  intros Hcreate d.
  destruct (apiCreate env efs.EFSClient (cover.createInput d) (remote s))
    as [reply r] eqn:Hapi.
  rewrite (create_unfold s reply r Hapi) in Hcreate. fold d in Hcreate.
  destruct reply as [e|].
  { injection Hcreate as <- <-. split; [simpl; lia|]. by exists 0. }
  destruct (waitCreated_log env efs.EFSClient (source_file_system_id d)
              (Timeout d TimeoutCreate)
              (spec.withId (called s (CallCreate efs.EFSClient (cover.createInput d)) r)
                 (source_file_system_id d)))
    as (out & err & n & s3 & Hw & Hc & Hd).
  rewrite Hw in Hcreate. simpl in Hc.
  destruct err as [e|].
  { injection Hcreate as <- <-. split; [simpl; lia|]. exists n.
    by rewrite Hc, <- app_assoc. }
  destruct (tfefs.resourceReplicationConfigurationRead env s3) as [[diags' s4]|] eqn:Hread;
    [|discriminate].
  injection Hcreate as <- <-.
  destruct (read_returns s3 diags' s4 Hread) as (Hc4 & Hlen & _).
  split; [done|]. exists (S n).
  rewrite Hc4, Hc, Hd. simpl.
  rewrite <- !app_assoc. simpl. f_equal. f_equal.
  change (replicate n ?x ++ [?x]) with (replicate n x ++ replicate 1 x).
  rewrite <- replicate_add. by replace (n + 1) with (S n) by lia.
Qed.

Lemma expandDestinationToCreate_request (tfMap : gmap string attr) :
  tfefs.expandDestinationToCreate (Some tfMap) = Some (cover.destinationRequest tfMap).
Proof.
  unfold tfefs.expandDestinationToCreate, cover.destinationRequest, tfefs.nonEmptyString,
    cover.blockString, cover.nonEmpty, names.AttrKMSKeyID, names.AttrRegion,
    names.AttrFileSystemID, aws.String.
  do 2 f_equal;
    match goal with
    | |- context [tfMap !! ?k] => by destruct (tfMap !! k) as [[|v|]|]
    end.
Qed.

Lemma createInput_request (d : ResourceData) : cover.createInput d = cover.createRequest d.
Proof.
  unfold cover.createInput, cover.createRequest. f_equal.
  rewrite expandDestinationsToCreate_spec. apply map_ext.
  intros tfMap. apply expandDestinationToCreate_request.
Qed.

(** C2: resourceReplicationConfigurationCreate first calls
    CreateReplicationConfiguration with the source file system ID of the
    schema and one destination for each block of the schema's destination
    list (its non-empty strings). When the call fails, the result is one
    error diagnostic, the resource data (so the ID) is untouched and no other
    call is made. When it succeeds, the ID is set to the source file system
    ID and the status is polled on that ID: the read runs only after a poll,
    within the timeout, has found ENABLED (after polls that found ENABLING or
    nothing), and then its result is the result; when the polls end
    otherwise, none of them found ENABLED, the wait's error is the diagnostic
    and nothing is read. *)
Theorem resourceReplicationConfigurationCreate_flow (s : State R) reply r :
  let d := data s in
  let fsID := source_file_system_id d in
  let input := cover.createRequest d in
  apiCreate env efs.EFSClient input (remote s) = (reply, r) ->
  let create := tfefs.resourceReplicationConfigurationCreate env in
  let status := tfefs.statusReplicationConfiguration env efs.EFSClient fsID in
  let polls := pollsWithin env (Timeout d TimeoutCreate) in
  let s1 := called s (CallCreate efs.EFSClient input) r in
  let s2 := spec.withId s1 fsID in
  (forall e,
      reply = Some e ->
      create s
      = Some (spec.errorDiag ("creating EFS Replication Configuration (" +:+ fsID +:+ "): "
                              +:+ tfefs.Error env e), s1)
      /\ data s1 = data s)
  /\ (reply = None ->
      exists n obs s3,
        n <= polls
        /\ spec.refreshes status n s2 = Some (obs, s3)
        /\ calls s3 = calls s1 ++ replicate n (CallDescribe efs.EFSClient (spec.byID fsID))
        /\ Id (data s3) = fsID
        /\ ((exists pre output,
               obs = pre ++ [spec.found output awstypes.ReplicationStatusEnabled]
               /\ Forall (fun x => spec.tolerated x = true) pre
               /\ create s = tfefs.resourceReplicationConfigurationRead env s3)
            \/ (exists e,
                  Forall (fun x => spec.statusIs awstypes.ReplicationStatusEnabled x = false) obs
                  /\ create s
                     = Some (spec.errorDiag ("waiting for EFS Replication Configuration ("
                                             +:+ fsID +:+ ") create: "
                                             +:+ tfefs.Error env e), s3))))
  /\ (reply = None ->
      forall k pre output s3,
        k < polls ->
        spec.refreshes status (S k) s2
        = Some (pre ++ [spec.found output awstypes.ReplicationStatusEnabled], s3) ->
        Forall (fun x => spec.tolerated x = true) pre ->
        cover.notFoundWithin 20 0 pre = true ->
        create s = tfefs.resourceReplicationConfigurationRead env s3).
Proof.
  intros d fsID input Hcreate create status polls s1 s2.
  unfold input in Hcreate. rewrite <- createInput_request in Hcreate.
  pose proof (create_unfold s reply r Hcreate) as Hflow. cbv zeta in Hflow.
  rewrite (createInput_request (data s)) in Hflow.
  fold d in Hflow. fold fsID input in Hflow. fold s1 in Hflow. fold s2 in Hflow.
  rewrite waitCreated_loop in Hflow. fold status polls in Hflow. fold create in Hflow.
  split; [|split].
  - intros e ->. by rewrite Hflow.
  - intros ->.
    destruct (created_exact env efs.EFSClient fsID (Timeout d TimeoutCreate) polls 0 "" s2)
      as (n & obs & s3 & out & err & Hn & Hobs & Hloop & Hok & Herr).
    fold status in Hobs, Hloop.
    destruct (refreshes_status_log env _ _ _ _ _ _ Hobs) as [Hcalls Hdata].
    assert (Id (data s3) = fsID) as Hid by (by rewrite Hdata).
    exists n, obs, s3. split; [done|]. split; [done|]. split; [done|]. split; [done|].
    rewrite Hloop in Hflow. destruct err as [e|].
    + right. exists e. split; [by apply Herr|]. by rewrite Hflow, Hid.
    + left. destruct (Hok eq_refl) as (pre & output & -> & _ & Hpre & _).
      exists pre, output. split; [done|]. split; [done|]. rewrite Hflow.
      by destruct (tfefs.resourceReplicationConfigurationRead env s3) as [[diags' s4]|].
  - intros -> k pre output s3 Hk Hobs Hpre Hruns.
    pose proof (refreshes_length _ _ _ _ _ Hobs) as Hlen.
    rewrite length_app in Hlen. simpl in Hlen.
    assert (k = length pre) as -> by lia.
    pose proof (created_complete_tolerated env efs.EFSClient fsID (Timeout d TimeoutCreate)
                  pre polls 0 "" s2 s3 output Hobs Hk Hpre Hruns) as Hwait.
    fold status in Hwait. rewrite Hflow, Hwait.
    by destruct (tfefs.resourceReplicationConfigurationRead env s3) as [[diags' s4]|].
Qed.

End Coverage.

(** * The service packages, beyond the claims *)

(** X18: the option function of mediaconvert NewClient never touches the
    Region, leaves the FIPS setting alone unless it was enabled, never
    leaves it enabled beside a non-empty configured endpoint, and changes
    nothing more when it is applied again. *)
Theorem setEndpoint_idempotent (Config Session : Type)
    (config : gmap string (any Config Session)) (o o' : mediaconvert.Options) :
  mediaconvert.setEndpoint config o = Some o' ->
  mediaconvert.Region o' = mediaconvert.Region o
  /\ (mediaconvert.UseFIPSEndpoint o <> aws.FIPSEndpointStateEnabled ->
      mediaconvert.UseFIPSEndpoint o' = mediaconvert.UseFIPSEndpoint o)
  /\ (forall endpoint,
        config !! names.AttrEndpoint = Some (AnyString endpoint) ->
        endpoint <> "" ->
        mediaconvert.UseFIPSEndpoint o' <> aws.FIPSEndpointStateEnabled)
  /\ mediaconvert.setEndpoint config o' = Some o'.
Proof.
  unfold mediaconvert.setEndpoint.
  destruct (config !! names.AttrEndpoint) as [[endpoint|c|se]|]; try discriminate.
  destruct (decide (endpoint = "")) as [Hz|Hz].
  - intros [= <-]. split; [done|]. split; [done|]. split; [|done].
    intros endpoint' [= <-] Hne. done.
  - destruct (decide (mediaconvert.UseFIPSEndpoint _ = aws.FIPSEndpointStateEnabled))
      as [Hf|Hf]; intros [= <-]; simpl in *.
    + split; [done|]. split; [done|]. split; [done|]. reflexivity.
    + split; [done|]. split; [done|]. split; [done|].
      by rewrite decide_False by done.
Qed.

(** X19: the client sfn NewConn returns keeps the Region of the session,
    keeps the FIPS setting of the session unless it was enabled, and never
    has it enabled beside a non-empty configured endpoint. *)
Theorem NewConn_session (ConfigV2 : Type)
    (config : gmap string (any ConfigV2 sfn.Session)) (conn : sfn.SFN) :
  sfn.NewConn config = Some conn ->
  exists sess,
    config !! names.AttrSession = Some (AnySession sess)
    /\ sfn.Region (sfn.clientConfig conn) = sfn.Region (sfn.sessConfig sess)
    /\ (sfn.UseFIPSEndpoint (sfn.sessConfig sess) <> aws.FIPSEndpointStateEnabled ->
        sfn.UseFIPSEndpoint (sfn.clientConfig conn)
        = sfn.UseFIPSEndpoint (sfn.sessConfig sess))
    /\ (forall endpoint,
          config !! names.AttrEndpoint = Some (AnyString endpoint) ->
          endpoint <> "" ->
          sfn.UseFIPSEndpoint (sfn.clientConfig conn) <> aws.FIPSEndpointStateEnabled).
Proof.
  unfold sfn.NewConn.
  destruct (config !! names.AttrSession) as [[s|c|sess]|]; try discriminate.
  destruct (config !! names.AttrEndpoint) as [[endpoint|c|s]|]; try discriminate.
  intros [= <-]. exists sess. split; [done|].
  destruct (decide (endpoint = "")) as [Hz|Hz].
  - simpl. split; [done|]. split; [done|]. intros endpoint' [= <-] Hne. done.
  - destruct (decide (sfn.UseFIPSEndpoint (sfn.sessConfig sess) = aws.FIPSEndpointStateEnabled))
      as [Hf|Hf]; simpl.
    + split; [done|]. split; [done|]. done.
    + split; [done|]. split; [done|]. intros endpoint' _ _. done.
Qed.

(** X20: mediaconvert NewClient returns a client exactly when the
    configuration map holds an SDK configuration under "aws_sdkv2_config" and
    a string under the endpoint key, and sfn NewConn exactly when it holds a
    session and a string under the endpoint key; on a missing key or a value
    of another type the type assertion panics. *)
Theorem constructors_panic (Config : Type) (optionsFromConfig : Config -> mediaconvert.Options)
    (config : gmap string (any Config sfn.Session)) :
  (is_Some (mediaconvert.NewClient optionsFromConfig config)
   <-> exists cfg endpoint,
       config !! "aws_sdkv2_config" = Some (AnyConfig cfg)
       /\ config !! names.AttrEndpoint = Some (AnyString endpoint))
  /\ (is_Some (sfn.NewConn config)
      <-> exists sess endpoint,
          config !! names.AttrSession = Some (AnySession sess)
          /\ config !! names.AttrEndpoint = Some (AnyString endpoint)).
Proof.
  split.
  - unfold mediaconvert.NewClient, mediaconvert.NewFromConfig, mediaconvert.setEndpoint.
    destruct (config !! "aws_sdkv2_config") as [[s|cfg|s]|];
      try (split; [by intros [? [=]]|by intros (? & ? & [=] & _)]).
    simpl. destruct (config !! names.AttrEndpoint) as [[endpoint|c|s]|];
      try (split; [by intros [? [=]]|by intros (? & ? & _ & [=])]).
    split; [eauto|]. intros _.
    destruct (decide (endpoint = "")); [simpl; eauto|].
    destruct (decide _); simpl; eauto.
  - unfold sfn.NewConn.
    destruct (config !! names.AttrSession) as [[s|c|sess]|];
      try (split; [by intros [? [=]]|by intros (? & ? & [=] & _)]).
    destruct (config !! names.AttrEndpoint) as [[endpoint|c|s]|];
      try (split; [by intros [? [=]]|by intros (? & ? & _ & [=])]).
    split; eauto.
Qed.

(** * The further theorems at work on the scripted service *)

Lemma resourceReplicationConfigurationRead_attributes_witness :
  exists s',
    tfefs.resourceReplicationConfigurationRead example.env scenario.configured = Some ([], s')
    /\ schema.source_file_system_region (data s') = "us-east-1".
Proof.
  destruct (resourceReplicationConfigurationRead_attributes example.env scenario.configured
              (example.replication "ENABLED") (scenario.described scenario.configured)
              eq_refl eq_refl (fun _ => eq_refl))
    as (s' & Hread & _ & _ & _ & _ & _ & _ & _ & _ & Hregion).
  exists s'. split; [exact Hread|exact Hregion].
Defined.

Lemma resourceReplicationConfigurationRead_destination_witness :
  exists s' tfMap tail,
    tfefs.resourceReplicationConfigurationRead example.env scenario.configured = Some ([], s')
    /\ schema.destination (data s') = schema.IMap (Some tfMap) :: tail
    /\ tfMap !! "availability_zone_name" = Some (schema.AString "eu-west-1a")
    /\ tfMap !! "status" = Some (schema.AString "ENABLED").
Proof.
  destruct (resourceReplicationConfigurationRead_destination example.env scenario.configured
              (example.replication "ENABLED") (scenario.described scenario.configured)
              eq_refl eq_refl (fun _ => eq_refl))
    as (s' & d0 & tfMap & tail & Hread & Hd0 & Hdest & _ & _ & Hstatus & Hconfig & _).
  injection Hd0 as <-.
  exists s', tfMap, tail. split; [exact Hread|]. split; [exact Hdest|]. split.
  - exact (proj1 (Hconfig _ _ eq_refl)).
  - exact Hstatus.
Defined.

Lemma resourceReplicationConfigurationRead_then_expand_witness :
  exists s' apiObject rest,
    tfefs.resourceReplicationConfigurationRead example.env scenario.configured = Some ([], s')
    /\ tfefs.expandDestinationsToCreate (schema.destination (data s')) = Some apiObject :: rest
    /\ awstypes.DestinationToCreate.Region apiObject = Some "eu-west-1".
Proof.
  destruct (resourceReplicationConfigurationRead_then_expand example.env scenario.configured
              (example.replication "ENABLED") (scenario.described scenario.configured)
              eq_refl eq_refl (fun _ => eq_refl))
    as (s' & d0 & apiObject & rest & Hread & Hd0 & Hexp & Hregion & _).
  injection Hd0 as <-.
  exists s', apiObject, rest. split; [exact Hread|]. split; [exact Hexp|exact Hregion].
Defined.

Lemma resourceReplicationConfigurationRead_set_error_witness :
  exists s',
    tfefs.resourceReplicationConfigurationRead scenario.strictEnv scenario.configured
    = Some (spec.errorDiag "setting destination: invalid destination", s').
Proof.
  eexists.
  exact (resourceReplicationConfigurationRead_set_error scenario.strictEnv scenario.configured
           (example.replication "ENABLED") (scenario.described scenario.configured)
           (OtherError "invalid destination") eq_refl eq_refl (fun _ => eq_refl)).
Defined.

Lemma resourceReplicationConfigurationRead_new_resource_witness :
  exists s1,
    tfefs.resourceReplicationConfigurationRead example.env
      (scenario.stateWith (scenario.resourceWith true scenario.oneZone) None None [])
    = Some (spec.errorDiag "reading EFS Replication Configuration (fs-1): library error", s1)
    /\ schema.Id (data s1) = "fs-1".
Proof.
  eexists.
  destruct (resourceReplicationConfigurationRead_new_resource example.env
              (scenario.stateWith (scenario.resourceWith true scenario.oneZone) None None [])
              None (NotFoundError (Some example.gone) (Some (spec.byID "fs-1")) "" 0) _
              eq_refl eq_refl) as [Hread Hdata].
  split; [exact Hread|]. by rewrite Hdata.
Defined.

Lemma resourceReplicationConfigurationDelete_data_witness :
  exists diags s',
    tfefs.resourceReplicationConfigurationDelete example.env
      (example.state None None [example.answer "DELETING"]) = Some (diags, s')
    /\ data s' = example.resource.
Proof.
  destruct (tfefs.resourceReplicationConfigurationDelete example.env
              (example.state None None [example.answer "DELETING"]))
    as [[diags s']|] eqn:Hdel; [|vm_compute in Hdel; discriminate].
  exists diags, s'. split; [reflexivity|].
  exact (proj1 (resourceReplicationConfigurationDelete_data example.env _ diags s' Hdel)).
Defined.

Lemma deleteReplicationConfiguration_nil_witness :
  exists n pre s',
    spec.refreshes (tfefs.statusReplicationConfiguration example.env efs.EFSClient "fs-1") n
      (called (example.state None None [example.answer "DELETING"])
         (CallDelete efs.EFSClient (spec.deleteByID "fs-1"))
         (remote (example.state None None [example.answer "DELETING"])))
    = Some (pre ++ [spec.absent; spec.absent], s').
Proof.
  destruct (tfefs.deleteReplicationConfiguration example.env efs.EFSClient "fs-1" 3
              (example.state None None [example.answer "DELETING"]))
    as [[[e|] s']|] eqn:Hdel; [vm_compute in Hdel; discriminate| |vm_compute in Hdel; discriminate].
  destruct (deleteReplicationConfiguration_nil example.env efs.EFSClient "fs-1" 3
              (example.state None None [example.answer "DELETING"]) s' None _ eq_refl Hdel)
    as [[Hcode _]|(_ & n & pre & _ & Hobs)]; [discriminate|].
  exists n, pre, s'. exact Hobs.
Defined.

Lemma resourceReplicationConfigurationCreate_calls_witness :
  exists diags s' n,
    tfefs.resourceReplicationConfigurationCreate example.env
      (example.state None None
         [example.answer "ENABLING"; example.answer "ENABLED"; example.answer "ENABLED"])
    = Some (diags, s')
    /\ calls s'
       = CallCreate efs.EFSClient (cover.createInput example.resource)
         :: replicate n (CallDescribe efs.EFSClient (spec.byID "fs-1")).
Proof.
  destruct (tfefs.resourceReplicationConfigurationCreate example.env
              (example.state None None
                 [example.answer "ENABLING"; example.answer "ENABLED"; example.answer "ENABLED"]))
    as [[diags s']|] eqn:Hcreate; [|vm_compute in Hcreate; discriminate].
  destruct (resourceReplicationConfigurationCreate_calls example.env _ diags s' Hcreate)
    as [_ [n Hcalls]].
  exists diags, s', n. split; [reflexivity|exact Hcalls].
Defined.

Lemma setEndpoint_idempotent_witness :
  mediaconvert.setEndpoint example.config (mediaconvert.options example.overridden)
  = Some (mediaconvert.options example.overridden).
Proof.
  assert (mediaconvert.setEndpoint example.config example.fipsOptions
          = Some (mediaconvert.options example.overridden)) as Hset
    by (vm_compute; reflexivity).
  exact (proj2 (proj2 (proj2 (setEndpoint_idempotent _ _ _ _ _ Hset)))).
Defined.

Lemma NewConn_session_witness :
  exists conn,
    sfn.NewConn example.config = Some conn
    /\ sfn.Region (sfn.clientConfig conn) = Some "us-east-1".
Proof.
  destruct (sfn.NewConn example.config) as [conn|] eqn:Hconn;
    [|vm_compute in Hconn; discriminate].
  exists conn. split; [reflexivity|].
  destruct (NewConn_session _ _ _ Hconn) as (sess & Hs & Hregion & _).
  vm_compute in Hs. injection Hs as <-. exact Hregion.
Defined.

(** The expansion of a destination block drops the empty key ID and the
    value that is not a string, and the list drops what is not a map. *)
Example expand_drops_empty :
  tfefs.expandDestinationsToCreate
    [schema.INotMap; schema.IMap None; schema.IMap (Some scenario.destinationMap)]
  = [Some {| awstypes.DestinationToCreate.AvailabilityZoneName := None;
             awstypes.DestinationToCreate.FileSystemId := None;
             awstypes.DestinationToCreate.KmsKeyId := None;
             awstypes.DestinationToCreate.Region := Some "eu-west-1" |}].
Proof. vm_compute. reflexivity. Qed.

(** A resource without a destination block cannot be deleted: the
    function panics before any call. *)
Example delete_without_destination :
  tfefs.resourceReplicationConfigurationDelete example.env
    (scenario.stateWith (scenario.resourceWith false []) None None []) = None.
Proof. vm_compute. reflexivity. Qed.

(** The create on the scripted service, accepted and refused. *)
Lemma resourceReplicationConfigurationCreate_flow_witness :
  tfefs.resourceReplicationConfigurationCreate example.env scenario.creating
  = Some ([], scenario.created)
  /\ tfefs.resourceReplicationConfigurationCreate example.env scenario.refusing
     = Some (spec.errorDiag "creating EFS Replication Configuration (fs-1): access denied",
             scenario.refused).
Proof.
  split.
  - eapply eq_trans.
    + apply (proj2 (proj2 (resourceReplicationConfigurationCreate_flow example.env
                             scenario.creating None (remote scenario.creating) eq_refl))
               eq_refl 2
               [spec.absent; spec.found (example.replication "ENABLING") "ENABLING"]
               (example.replication "ENABLED")).
      * vm_compute. lia.
      * reflexivity.
      * repeat constructor.
      * reflexivity.
    + vm_compute. reflexivity.
  - apply (proj1 (resourceReplicationConfigurationCreate_flow example.env
                    scenario.refusing (Some example.denied) (remote scenario.refusing)
                    eq_refl) example.denied eq_refl).
Defined.
